(** * Forecasting pipeline of the economic dashboard

    A shallow embedding of [src/dados/processadores/previsao.py] and of the
    forecast flow of [src/visualizacao/dashboard.py]:

    - the tabular data the code handles (a pandas frame) and the pandas
      operations the two files call;
    - [PrevisorSeriesTemporal]: [preparar_dados], [treinar], [prever];
    - [processar_dados_deficit] and [processar_dados_iof];
    - the value-column selection and the forecast table of [main].

    Frames are objects: the code renames and assigns columns in place, so
    the frame operations run in a small state-and-exception monad over a
    store of frames, and a frame is passed around by reference. *)

From Stdlib Require Import ZArith QArith Qround Ascii String DecimalString.
From stdpp Require Import base list strings gmap sorting.

Open Scope string_scope.
Open Scope list_scope.
Open Scope Z_scope.

(** ** Cells, rows and frames *)

(** A timestamp is a number of nanoseconds since 1970-01-01T00:00, as in
    pandas. *)
Definition Timestamp := Z.

(** The value of one cell. [CNull] stands for what pandas calls missing:
    [None], [NaN] and [NaT]. A finite float is a rational. *)
Inductive cell : Type :=
  | CNull
  | CNum (q : Q)
  | CStr (s : string)
  | CDate (t : Timestamp).

Definition isna (c : cell) : bool :=
  match c with CNull => true | _ => false end.

Definition notna (c : cell) : bool := negb (isna c).

(** One row: its index label and its cells, one per column. *)
Record Row : Type := mkRow { label : Z; cells : list cell }.

(** A frame: the column labels in order, and the rows in order. *)
Record DataFrame : Type := mkDF { columns : list string; rows : list Row }.

(** [pd.DataFrame()] *)
Definition empty_frame : DataFrame := mkDF [] [].

(** [df.empty]: some axis has length 0. *)
Definition df_empty (d : DataFrame) : bool :=
  match columns d, rows d with
  | [], _ => true
  | _, [] => true
  | _, _ => false
  end.

(** [len(df)] *)
Definition df_len (d : DataFrame) : nat := length (rows d).

(** [c in df.columns] *)
Fixpoint in_columns (c : string) (cols : list string) : bool :=
  match cols with
  | [] => false
  | x :: cols' => if String.eqb c x then true else in_columns c cols'
  end.

(** Position of the column labelled [c]: the first one. The frames of the
    program have no repeated label unless the rename of
    [processar_dados_deficit] or [processar_dados_iof] makes one; on a frame
    with a repeated label pandas selects every column with the label, which
    this position does not model, so the theorems that select a column by
    label on a frame given from outside ask for [NoDup (columns d)]. *)
Fixpoint col_index (c : string) (cols : list string) : option nat :=
  match cols with
  | [] => None
  | x :: cols' =>
      if String.eqb c x then Some 0%nat
      else match col_index c cols' with
           | Some i => Some (S i)
           | None => None
           end
  end.

Definition get_cell (i : nat) (r : Row) : cell := nth i (cells r) CNull.

(** ** Exceptions and pure frame operations *)

Inductive exn : Type :=
  | KeyError (k : string)
  | ValueError
  | DanglingRef.

Definition res (A : Type) : Type := (exn + A)%type.

Fixpoint col_indices (names cols : list string) : res (list nat) :=
  match names with
  | [] => inr []
  | c :: names' =>
      match col_index c cols with
      | None => inl (KeyError c)
      | Some i =>
          match col_indices names' cols with
          | inl e => inl e
          | inr l => inr (i :: l)
          end
      end
  end.

(** [df[[c1, ..., cn]]]: a new frame with these columns, same index;
    [KeyError] when a label is not a column. *)
Definition select_columns (names : list string) (d : DataFrame) : res DataFrame :=
  match col_indices names (columns d) with
  | inl e => inl e
  | inr idxs =>
      inr (mkDF names
             (map (fun r => mkRow (label r) (map (fun i => get_cell i r) idxs))
                  (rows d)))
  end.

(** A Python dict literal used as a renaming: a later entry for the same
    key replaces an earlier one; a label that is not a key stays. *)
Fixpoint rename_label (m : list (string * string)) (c : string) : string :=
  match m with
  | [] => c
  | (k, v) :: m' =>
      if in_columns c (map fst m') then rename_label m' c
      else if String.eqb c k then v else c
  end.

(** [df.rename(columns=m)] on the value of a frame. *)
Definition rename_columns (m : list (string * string)) (d : DataFrame) : DataFrame :=
  mkDF (map (rename_label m) (columns d)) (rows d).

(** [df[c]]: the column as a list of cells; [KeyError] when absent. *)
Definition get_column (c : string) (d : DataFrame) : res (list cell) :=
  match col_index c (columns d) with
  | None => inl (KeyError c)
  | Some i => inr (map (get_cell i) (rows d))
  end.

Fixpoint set_cells (i : nat) (rs : list Row) (col : list cell) : list Row :=
  match rs, col with
  | r :: rs', v :: col' =>
      mkRow (label r) (<[i := v]> (cells r)) :: set_cells i rs' col'
  | _, _ => rs
  end.

(** [df[c] = col], for a column computed from the same frame (so the
    values are aligned with the rows): replaces the column when it exists,
    appends it otherwise. *)
Definition set_column (c : string) (col : list cell) (d : DataFrame) : DataFrame :=
  match col_index c (columns d) with
  | Some i => mkDF (columns d) (set_cells i (rows d) col)
  | None =>
      mkDF (columns d ++ [c])
        (map (fun rv => mkRow (label (fst rv)) (cells (fst rv) ++ [snd rv]))
             (combine (rows d) (col ++ repeat CNull (length (rows d)))))
  end.

(** [df.dropna(subset=names)]: the rows with no missing cell in the named
    columns, in order, index labels kept. *)
Definition dropna (names : list string) (d : DataFrame) : res DataFrame :=
  match col_indices names (columns d) with
  | inl e => inl e
  | inr idxs =>
      inr (mkDF (columns d)
             (List.filter (fun r => forallb (fun i => notna (get_cell i r)) idxs)
                          (rows d)))
  end.

(** Order used by [sort_values] on a datetime column: ascending
    timestamps, missing values last. *)
Definition cell_lt (a b : cell) : bool :=
  match a, b with
  | CDate x, CDate y => x <? y
  | CDate _, _ => true
  | _, _ => false
  end.

Section Sort.
Context {A : Type} (lt : A -> A -> bool).

(** Insertion that keeps [x] before the elements it is not above: the sort
    is stable. pandas' default sort does not promise an order among equal
    keys; the order of the input is the one modelled here. What is proved
    of the order of a result holds for any correct sort, see [sorter]
    below, and nothing is claimed of the order among equal keys. *)
Fixpoint insert_sorted (x : A) (l : list A) : list A :=
  match l with
  | [] => [x]
  | h :: t => if lt h x then h :: insert_sorted x t else x :: h :: t
  end.

Fixpoint sort_by (l : list A) : list A :=
  match l with
  | [] => []
  | x :: t => insert_sorted x (sort_by t)
  end.

(** No element is above the one before it. *)
Fixpoint not_descending (l : list A) : Prop :=
  match l with
  | x :: ((h :: _) as t) => lt h x = false /\ not_descending t
  | _ => True
  end.

End Sort.

(** [df.sort_values(by=c)] for a datetime column [c]. *)
Definition sort_values (c : string) (d : DataFrame) : res DataFrame :=
  match col_index c (columns d) with
  | None => inl (KeyError c)
  | Some i =>
      inr (mkDF (columns d)
             (sort_by (fun r1 r2 => cell_lt (get_cell i r1) (get_cell i r2))
                      (rows d)))
  end.

(** ** Conversions of pandas that depend on its parsers

    [parse_date s] is what [pd.to_datetime] does with the text [s] under the
    format in force for the column: [None] when it raises, [Some None] when
    the text reads as missing, [Some (Some t)] when it parses.
    [epoch_of_num q] is the timestamp of a number (nanoseconds since the
    epoch), [None] when out of bounds. [parse_num s] is the number that
    [pd.to_numeric] reads in [s], [None] when there is none. *)
Class PandasConv : Type := {
  parse_date : string -> option (option Timestamp);
  epoch_of_num : Q -> option Timestamp;
  parse_num : string -> option Q
}.

Section Conversions.
Context `{PandasConv}.

(** One element of [pd.to_datetime(col)], with the default [errors="raise"]. *)
Definition to_datetime_cell (c : cell) : res cell :=
  match c with
  | CNull => inr CNull
  | CDate t => inr (CDate t)
  | CNum q =>
      match epoch_of_num q with
      | Some t => inr (CDate t)
      | None => inl ValueError
      end
  | CStr s =>
      match parse_date s with
      | Some (Some t) => inr (CDate t)
      | Some None => inr CNull
      | None => inl ValueError
      end
  end.

(** [pd.to_datetime(col)]: raises as soon as one element does. *)
Fixpoint to_datetime (col : list cell) : res (list cell) :=
  match col with
  | [] => inr []
  | c :: col' =>
      match to_datetime_cell c with
      | inl e => inl e
      | inr c' =>
          match to_datetime col' with
          | inl e => inl e
          | inr l => inr (c' :: l)
          end
      end
  end.

(** One element of [pd.to_numeric(col, errors="coerce")]: what is not a
    number becomes missing; a timestamp is its count of nanoseconds. *)
Definition to_numeric_cell (c : cell) : cell :=
  match c with
  | CNull => CNull
  | CNum q => CNum q
  | CStr s => match parse_num s with Some q => CNum q | None => CNull end
  | CDate t => CNum (inject_Z t)
  end.

Definition to_numeric_coerce (col : list cell) : list cell :=
  map to_numeric_cell col.

End Conversions.

(** ** The store of frames and its monad *)

Abbreviation ref := nat.
Abbreviation store := (list DataFrame).

(** A computation reads and updates the store and either raises or returns. *)
Definition M (A : Type) : Type := store -> store * res A.

#[global] Instance M_ret : MRet M := fun A a st => (st, inr a).

#[global] Instance M_bind : MBind M := fun A B f m st =>
  match m st with
  | (st', inl e) => (st', inl e)
  | (st', inr a) => f a st'
  end.

(** A frame operation that touches no object: it returns or raises. *)
Definition lift {A : Type} (x : res A) : M A := fun st => (st, x).

(** [try: body except Exception: handler]; what [body] did to the store
    before it raised stays done. *)
Definition try_except {A : Type} (body : M A) (handler : exn -> M A) : M A :=
  fun st =>
    match body st with
    | (st', inl e) => handler e st'
    | (st', inr a) => (st', inr a)
    end.

(** A new frame object. *)
Definition new_frame (d : DataFrame) : M ref :=
  fun st => (st ++ [d], inr (length st)).

Definition deref (r : ref) : M DataFrame :=
  fun st =>
    match st !! r with
    | Some d => (st, inr d)
    | None => (st, inl DanglingRef)
    end.

(** The object [r] changes in place. *)
Definition assign (r : ref) (d : DataFrame) : M unit :=
  fun st => (<[r := d]> st, inr tt).

(** ** pandas methods on frame objects *)

(** [pd.DataFrame()] *)
Definition pd_DataFrame : M ref := new_frame empty_frame.

(** [df[[c1, ..., cn]]] *)
Definition df_getitem_columns (df : ref) (names : list string) : M ref :=
  d ← deref df; d' ← lift (select_columns names d); new_frame d'.

(** [df.copy()] *)
Definition df_copy (df : ref) : M ref :=
  d ← deref df; new_frame d.

(** [df.rename(columns=m, inplace=True)] *)
Definition df_rename_inplace (df : ref) (m : list (string * string)) : M unit :=
  d ← deref df; assign df (rename_columns m d).

(** [df[c]] *)
Definition df_getitem (df : ref) (c : string) : M (list cell) :=
  d ← deref df; lift (get_column c d).

(** [df[c] = col] *)
Definition df_setitem (df : ref) (c : string) (col : list cell) : M unit :=
  d ← deref df; assign df (set_column c col d).

(** [df.dropna(subset=names)] *)
Definition df_dropna (df : ref) (names : list string) : M ref :=
  d ← deref df; d' ← lift (dropna names d); new_frame d'.

(** [df.sort_values(by=c)] *)
Definition df_sort_values (df : ref) (c : string) : M ref :=
  d ← deref df; d' ← lift (sort_values c d); new_frame d'.

(** ** [PrevisorSeriesTemporal.preparar_dados] *)

Section PrepararDados.
Context `{PandasConv}.

(** The method does not use [self]. The logger calls are left out. *)
Definition preparar_dados (df : ref) (coluna_data coluna_valor : string) : M ref :=
  d ← deref df;
  if df_empty d then pd_DataFrame
  else
    try_except
      (sel ← df_getitem_columns df [coluna_data; coluna_valor];
       df_prophet ← df_copy sel;
       _ ← df_rename_inplace df_prophet [(coluna_data, "ds"); (coluna_valor, "y")];
       ds ← df_getitem df_prophet "ds";
       ds' ← lift (to_datetime ds);
       _ ← df_setitem df_prophet "ds" ds';
       df_prophet ← df_dropna df_prophet ["ds"; "y"];
       df_prophet ← df_sort_values df_prophet "ds";
       mret df_prophet)
      (fun _ => pd_DataFrame).

End PrepararDados.

(** ** Calendar

    The proleptic Gregorian calendar, as [datetime] and pandas use it:
    days since 1970-01-01 from a civil date and back. *)

Definition ns_per_day : Z := 86400000000000.

Definition days_from_civil (y m d : Z) : Z :=
  let y' := if m <=? 2 then y - 1 else y in
  let era := y' / 400 in
  let yoe := y' - era * 400 in
  let mp := (m + 9) mod 12 in
  let doy := (153 * mp + 2) / 5 + d - 1 in
  let doe := yoe * 365 + yoe / 4 - yoe / 100 + doy in
  era * 146097 + doe - 719468.

Definition civil_from_days (n : Z) : Z * Z * Z :=
  let z := n + 719468 in
  let era := z / 146097 in
  let doe := z - era * 146097 in
  let yoe := (doe - doe / 1460 + doe / 36524 - doe / 146096) / 365 in
  let doy := doe - (365 * yoe + yoe / 4 - yoe / 100) in
  let mp := (5 * doy + 2) / 153 in
  let d := doy - (153 * mp + 2) / 5 + 1 in
  let m := if mp <? 10 then mp + 3 else mp - 9 in
  let y := yoe + era * 400 in
  (if m <=? 2 then y + 1 else y, m, d).

(** Midnight of a civil date. *)
Definition timestamp_of_date (y m d : Z) : Timestamp :=
  days_from_civil y m d * ns_per_day.

Definition digit_char (n : Z) : ascii := ascii_of_nat (Z.to_nat (48 + n mod 10)).

Definition pad2 (n : Z) : string :=
  String (digit_char (n / 10)) (String (digit_char n) EmptyString).

Definition pad4 (n : Z) : string :=
  String (digit_char (n / 1000)) (String (digit_char (n / 100)) (pad2 n)).

(** [t.strftime("%d/%m/%Y")] *)
Definition strftime_dmy (t : Timestamp) : string :=
  let '(y, m, d) := civil_from_days (t / ns_per_day) in
  String.append (pad2 d)
    (String.append "/" (String.append (pad2 m) (String.append "/" (pad4 y)))).

(** ** A concrete instance of the conversions

    Dates written [YYYY-MM-DD], the empty text read as missing; numbers
    written as decimal digits with an optional sign and fraction. It is the
    instance the examples run with. *)
Module Iso.

Definition digit_of (a : ascii) : option Z :=
  let n := Z.of_nat (nat_of_ascii a) - 48 in
  if (0 <=? n) && (n <=? 9) then Some n else None.

Fixpoint digits_from (acc : Z) (s : string) : option Z :=
  match s with
  | EmptyString => Some acc
  | String a s' =>
      match digit_of a with
      | Some n => digits_from (10 * acc + n) s'
      | None => None
      end
  end.

Definition number_of (s : string) : option Z :=
  match s with
  | EmptyString => None
  | _ => digits_from 0 s
  end.

Definition date_of_text (s : string) : option (option Timestamp) :=
  match s with
  | EmptyString => Some None
  | _ =>
      if (String.length s =? 10)%nat
         && String.eqb (substring 4 1 s) "-"
         && String.eqb (substring 7 1 s) "-"
      then
        match number_of (substring 0 4 s),
              number_of (substring 5 2 s),
              number_of (substring 8 2 s) with
        | Some y, Some m, Some d =>
            if (1 <=? m) && (m <=? 12) && (1 <=? d) && (d <=? 31) then
              let n := days_from_civil y m d in
              match civil_from_days n with
              | (y', m', d') =>
                  if (y' =? y) && (m' =? m) && (d' =? d)
                  then Some (Some (n * ns_per_day)) else None
              end
            else None
        | _, _, _ => None
        end
      else None
  end.

Definition epoch_of (q : Q) : option Timestamp :=
  let n := Qfloor q in
  if (- 2 ^ 63 <? n) && (n <? 2 ^ 63) then Some n else None.

Definition unsigned_num (s : string) : option Q :=
  match index 0 "." s with
  | None => option_map inject_Z (number_of s)
  | Some i =>
      let frac := substring (S i) (String.length s - S i) s in
      match number_of (substring 0 i s), number_of frac with
      | Some a, Some b =>
          Some (Qmake (a * 10 ^ Z.of_nat (String.length frac) + b)
                      (Z.to_pos (10 ^ Z.of_nat (String.length frac))))
      | _, _ => None
      end
  end.

Definition num_of_text (s : string) : option Q :=
  match s with
  | String "-"%char s' => option_map Qopp (unsigned_num s')
  | _ => unsigned_num s
  end.

#[global] Instance conv : PandasConv :=
  {| parse_date := date_of_text;
     epoch_of_num := epoch_of;
     parse_num := num_of_text |}.

End Iso.

(** ** Running a computation *)

(** The frame a computation returns, read from the store it leaves. *)
Definition returned_frame (m : M ref) (st : store) : option DataFrame :=
  match m st with
  | (st', inr r) => st' !! r
  | (_, inl _) => None
  end.

(** The store a computation leaves. *)
Definition final_store {A : Type} (m : M A) (st : store) : store := fst (m st).

Section PreparedValue.
Context `{PandasConv}.

(** The value [preparar_dados] computes inside its [try] block, as a
    composition of the frame operations, with no store. *)
Definition prepared_value (d : DataFrame) (coluna_data coluna_valor : string)
  : res DataFrame :=
  match select_columns [coluna_data; coluna_valor] d with
  | inl e => inl e
  | inr sel =>
      let ren := rename_columns [(coluna_data, "ds"); (coluna_valor, "y")] sel in
      match get_column "ds" ren with
      | inl e => inl e
      | inr ds =>
          match to_datetime ds with
          | inl e => inl e
          | inr ds' =>
              match dropna ["ds"; "y"] (set_column "ds" ds' ren) with
              | inl e => inl e
              | inr dr => sort_values "ds" dr
              end
          end
      end
  end.

Definition prepared (d : DataFrame) (coluna_data coluna_valor : string) : DataFrame :=
  if df_empty d then empty_frame
  else match prepared_value d coluna_data coluna_valor with
       | inr x => x
       | inl _ => empty_frame
       end.

End PreparedValue.

(** ** [processar_dados_deficit] and [processar_dados_iof] *)

(** One JSON object of the input list: its fields in order, keys distinct. *)
Definition record : Type := list (string * cell).

Fixpoint dict_get (k : string) (r : record) : option cell :=
  match r with
  | [] => None
  | (k', v) :: r' => if String.eqb k k' then Some v else dict_get k r'
  end.

Fixpoint add_keys (ks acc : list string) : list string :=
  match ks with
  | [] => acc
  | k :: ks' => add_keys ks' (if in_columns k acc then acc else acc ++ [k])
  end.

(** [pd.DataFrame(dados)] for a list of dicts: the columns are the keys in
    the order they first appear, a field a record lacks is missing, and the
    index is 0, 1, ... *)
Definition from_records (dados : list record) : DataFrame :=
  let cols := fold_left (fun acc r => add_keys (map fst r) acc) dados [] in
  mkDF cols
    (imap (fun i r =>
             mkRow (Z.of_nat i)
               (map (fun c => match dict_get c r with Some v => v | None => CNull end)
                    cols))
          dados).

Section Processar.
Context `{PandasConv}.

(** The two functions of the source have the same body up to the label the
    value column gets (and the text of the log messages). *)
Definition processar_dados_como (rotulo : string) (dados : list record) : M ref :=
  try_except
    (df ← new_frame (from_records dados);
     data ← df_getitem df "data";
     data' ← lift (to_datetime data);
     _ ← df_setitem df "data" data';
     valor ← df_getitem df "valor";
     _ ← df_setitem df "valor" (to_numeric_coerce valor);
     df ← df_dropna df ["valor"];
     df ← df_sort_values df "data";
     _ ← df_rename_inplace df [("valor", rotulo)];
     mret df)
    (fun _ => pd_DataFrame).

Definition processar_dados_deficit (dados : list record) : M ref :=
  processar_dados_como "deficit" dados.

Definition processar_dados_iof (dados : list record) : M ref :=
  processar_dados_como "iof" dados.

End Processar.

(** ** The forecasting library

    [Prophet] is an external class. Its objects are mutable: [fit] changes
    the object it is called on, also when it raises. *)

Record ForecastRow : Type := mkForecastRow {
  ds : Timestamp;
  yhat : Q;
  yhat_lower : Q;
  yhat_upper : Q
}.

Record ProphetParams : Type := mkParams {
  yearly_seasonality : bool;
  weekly_seasonality : bool;
  daily_seasonality : bool;
  seasonality_mode : string;
  changepoint_prior_scale : Q
}.

Class ProphetAPI (model : Type) : Type := {
  (** [Prophet(...)]; [None] when the constructor raises. *)
  Prophet_init : ProphetParams -> option model;
  (** [m.fit(df)]: the object after the call, and [false] when it raised. *)
  Prophet_fit : model -> DataFrame -> model * bool;
  (** [m.make_future_dataframe(periods=n)]; [None] when it raises. *)
  Prophet_make_future_dataframe : model -> Z -> option (list Timestamp);
  (** [m.predict(future)]; [None] when it raises. *)
  Prophet_predict : model -> list Timestamp -> option (list ForecastRow)
}.

(** ** [PrevisorSeriesTemporal] *)

Record PrevisorSeriesTemporal (model : Type) : Type := mkPrevisor {
  tipo_modelo : string;
  modelo : option model;
  sazonalidade_anual : bool;
  sazonalidade_semanal : bool;
  sazonalidade_diaria : bool;
  modo_sazonalidade : string;
  escala_prior_pontos_mudanca : Q
}.

Arguments mkPrevisor {model}.
Arguments tipo_modelo {model}.
Arguments modelo {model}.
Arguments sazonalidade_anual {model}.
Arguments sazonalidade_semanal {model}.
Arguments sazonalidade_diaria {model}.
Arguments modo_sazonalidade {model}.
Arguments escala_prior_pontos_mudanca {model}.

(** [__init__]: no model is bound. *)
Definition novo_previsor {model : Type} (tipo : string)
    (anual semanal diaria : bool) (modo : string) (escala : Q)
  : PrevisorSeriesTemporal model :=
  mkPrevisor tipo None anual semanal diaria modo escala.

(** [self.modelo = m] *)
Definition set_modelo {model : Type} (self : PrevisorSeriesTemporal model)
    (m : model) : PrevisorSeriesTemporal model :=
  mkPrevisor (tipo_modelo self) (Some m) (sazonalidade_anual self)
    (sazonalidade_semanal self) (sazonalidade_diaria self)
    (modo_sazonalidade self) (escala_prior_pontos_mudanca self).

(** Why a call failed: the branch that logs the error and returns [False]
    or [None]. *)
Inductive ForecastError : Type :=
  | InsufficientData
  | UnsupportedModelKind
  | TrainingFailure
  | ModelNotTrained
  | PredictionFailure.

Section Previsor.
Context {model : Type} `{ProphetAPI model}.

Definition prophet_params (self : PrevisorSeriesTemporal model) : ProphetParams :=
  mkParams (sazonalidade_anual self) (sazonalidade_semanal self)
    (sazonalidade_diaria self) (modo_sazonalidade self)
    (escala_prior_pontos_mudanca self).

(** [treinar]: the engine after the call and the outcome, [inr tt] for
    [True] and [inl e] for [False] with its cause. The frame is only read,
    so it is passed by value. The assignment to [self.modelo] comes before
    the call of [fit], as in the source, and [fit] changes the object that
    [self.modelo] refers to. *)
Definition treinar (self : PrevisorSeriesTemporal model) (df : DataFrame)
  : PrevisorSeriesTemporal model * (ForecastError + unit) :=
  if df_empty df || (df_len df <? 2)%nat then (self, inl InsufficientData)
  else if String.eqb (tipo_modelo self) "prophet" then
    match Prophet_init (prophet_params self) with
    | None => (self, inl TrainingFailure)
    | Some m =>
        let self1 := set_modelo self m in
        match Prophet_fit m df with
        | (m', true) => (set_modelo self1 m', inr tt)
        | (m', false) => (set_modelo self1 m', inl TrainingFailure)
        end
    end
  else (self, inl UnsupportedModelKind).

(** [prever]: [inr previsao] for a frame, [inl e] for [None] with its
    cause. *)
Definition prever (self : PrevisorSeriesTemporal model) (periodos : Z)
  : ForecastError + list ForecastRow :=
  match modelo self with
  | None => inl ModelNotTrained
  | Some m =>
      if String.eqb (tipo_modelo self) "prophet" then
        match Prophet_make_future_dataframe m periodos with
        | None => inl PredictionFailure
        | Some futuro =>
            match Prophet_predict m futuro with
            | None => inl PredictionFailure
            | Some previsao => inr previsao
            end
        end
      else inl UnsupportedModelKind
  end.

End Previsor.

(** ** The forecast flow of the dashboard *)

(** What the page shows. *)
Inductive mensagem : Type :=
  | ErroColunaValor (nome : string).

(** [pd.api.types.is_numeric_dtype(df[col])]: the column holds numbers,
    missing ones included, and nothing else. pandas decides by the dtype of
    the column, so a column of missing values only can be of dtype object
    and not numeric there; the predicate is decided cell by cell here, and
    the theorems on the resolver hold however it is decided. *)
Definition is_numeric_cell (c : cell) : bool :=
  match c with CNum _ | CNull => true | _ => false end.

Definition is_numeric_dtype (d : DataFrame) (col : string) : bool :=
  match get_column col d with
  | inr cs => forallb is_numeric_cell cs
  | inl _ => false
  end.

(** Truth value of a Python string. *)
Definition truthy (s : string) : bool :=
  match s with EmptyString => false | _ => true end.

(** The value column of the selected indicator: [coluna_valor] is
    [config_indicador.get("coluna_valor")], [nome] the display name. The
    result is the column, or [None], and what [st.error] showed. *)
Definition obter_coluna_valor (coluna_valor : option string) (nome : string)
    (d : DataFrame) : option string * list mensagem :=
  if match coluna_valor with
     | Some c => truthy c && in_columns c (columns d)
     | None => false
     end
  then (coluna_valor, [])
  else if in_columns "valor" (columns d) then (Some "valor", [])
  else if in_columns "deficit" (columns d) then (Some "deficit", [])
  else if in_columns "iof" (columns d) then (Some "iof", [])
  else
    let colunas_numericas :=
      List.filter
        (fun col => negb (in_columns col ["data"; "ano"]) && is_numeric_dtype d col)
        (columns d) in
    match colunas_numericas with
    | c :: _ => (Some c, [])
    | [] => (None, [ErroColunaValor nome])
    end.

(** One row of the table shown under the charts. *)
Record LinhaTabela : Type := mkLinha {
  Data : string;
  Previsao : Q;
  Limite_Inferior : Q;
  Limite_Superior : Q
}.

(** The table of the forecast: the four columns renamed, the dates
    formatted, and the rows kept by the comparison with today's date, which
    is a comparison of the formatted texts. [agora] is
    [datetime.datetime.now()]. *)
Definition tabela_previsao (agora : Timestamp) (previsao : list ForecastRow)
  : list LinhaTabela :=
  let df_exibir :=
    map (fun r => mkLinha (strftime_dmy (ds r)) (yhat r) (yhat_lower r) (yhat_upper r))
        previsao in
  let hoje := strftime_dmy agora in
  List.filter (fun r => String.leb hoje (Data r)) df_exibir.

(** ** A simple instance of the forecasting library

    It keeps the dates it was fitted on, extends them day by day and
    forecasts the last value it saw. Like the library, [fit] raises on a
    frame without the columns [ds] and [y] or with fewer than two complete
    rows, and on an object that was fitted already; the other two methods
    raise on an object that was not fitted. It is the instance the examples
    run with. *)
Module SimpleProphet.

Record model : Type := mkModel {
  params : ProphetParams;
  history : option (list (Timestamp * Q))
}.

Definition init (p : ProphetParams) : option model :=
  if String.eqb (seasonality_mode p) "additive"
     || String.eqb (seasonality_mode p) "multiplicative"
  then Some (mkModel p None) else None.

Definition observation (i j : nat) (r : Row) : option (Timestamp * Q) :=
  match get_cell i r, get_cell j r with
  | CDate t, CNum q => Some (t, q)
  | _, _ => None
  end.

Definition fit (m : model) (df : DataFrame) : model * bool :=
  match history m, col_index "ds" (columns df), col_index "y" (columns df) with
  | None, Some i, Some j =>
      let obs := omap (observation i j) (rows df) in
      if (length obs <? 2)%nat then (m, false)
      else (mkModel (params m) (Some obs), true)
  | _, _, _ => (m, false)
  end.

Fixpoint next_days (t : Timestamp) (n : nat) : list Timestamp :=
  match n with
  | O => []
  | S n' => (t + ns_per_day) :: next_days (t + ns_per_day) n'
  end.

Definition make_future_dataframe (m : model) (periods : Z) : option (list Timestamp) :=
  match history m with
  | None => None
  | Some obs =>
      let dates := map fst obs in
      Some (dates ++ next_days (List.last dates 0) (Z.to_nat periods))
  end.

Definition predict (m : model) (future : list Timestamp) : option (list ForecastRow) :=
  match history m with
  | None => None
  | Some obs =>
      let v := List.last (map snd obs) 0%Q in
      Some (map (fun t => mkForecastRow t v v v) future)
  end.

#[global] Instance api : ProphetAPI model :=
  {| Prophet_init := init;
     Prophet_fit := fit;
     Prophet_make_future_dataframe := make_future_dataframe;
     Prophet_predict := predict |}.

End SimpleProphet.

(** ** The rows [preparar_dados] keeps *)

Section PreparedRows.
Context `{PandasConv}.

Definition date_converts (c : cell) : bool :=
  match to_datetime_cell c with inr _ => true | inl _ => false end.

Definition to_datetime_or_null (c : cell) : cell :=
  match to_datetime_cell c with inr c' => c' | inl _ => CNull end.

(** The row of the prepared frame that comes from the row [r] of the
    input, whose date is in column [i] and whose value is in column [j]. *)
Definition prepared_row (i j : nat) (r : Row) : Row :=
  mkRow (label r) [to_datetime_or_null (get_cell i r); get_cell j r].

End PreparedRows.

(** Neither the date nor the value of a prepared row is missing. *)
Definition complete_row (r : Row) : bool :=
  forallb (fun i => notna (get_cell i r)) [0%nat; 1%nat].

Definition by_ds (r1 r2 : Row) : bool :=
  cell_lt (get_cell 0 r1) (get_cell 0 r2).

(** ** The statements of the specification *)

(** A canonical series: the columns [ds] and [y], a parsed timestamp and a
    number in every row, and timestamps in ascending order. *)
Definition canonical_row (r : Row) : bool :=
  match cells r with
  | [CDate _; CNum _] => true
  | _ => false
  end.

Definition row_ds (r : Row) : cell := get_cell 0 r.

Fixpoint ascending (rs : list Row) : bool :=
  match rs with
  | r1 :: ((r2 :: _) as rs') => negb (cell_lt (row_ds r2) (row_ds r1)) && ascending rs'
  | _ => true
  end.

Definition is_canonical (d : DataFrame) : bool :=
  bool_decide (columns d = ["ds"; "y"])
  && forallb canonical_row (rows d) && ascending (rows d).

(** The precedence of the column resolver, as the specification words it:
    a list of rules, the first that matches wins. *)
Definition rule : Type := DataFrame -> option string.

Definition rule_hint (hint : option string) : rule :=
  fun d =>
    match hint with
    | Some h => if in_columns h (columns d) then Some h else None
    | None => None
    end.

Definition rule_named (c : string) : rule :=
  fun d => if in_columns c (columns d) then Some c else None.

Definition rule_first_numeric : rule :=
  fun d =>
    head (List.filter
            (fun c => is_numeric_dtype d c && negb (in_columns c ["data"; "ano"]))
            (columns d)).

Fixpoint first_match (rules : list rule) (d : DataFrame) : option string :=
  match rules with
  | [] => None
  | f :: rules' =>
      match f d with
      | Some c => Some c
      | None => first_match rules' d
      end
  end.

Inductive ColumnNotFound : Type := column_not_found.

Definition resolveValueColumn (d : DataFrame) (hint : option string)
  : ColumnNotFound + string :=
  match first_match
          [rule_hint hint; rule_named "valor"; rule_named "deficit";
           rule_named "iof"; rule_first_numeric] d with
  | Some c => inr c
  | None => inl column_not_found
  end.

(** ** Example tables *)

Definition linha (i : Z) (data valor : cell) : Row := mkRow i [data; valor].

(** Three dated values and one row whose date is not a date. *)
Definition serie_com_data_invalida : DataFrame :=
  mkDF ["data"; "valor"]
    [linha 0 (CStr "2023-01-01") (CNum 10);
     linha 1 (CStr "not-a-date") (CNum 5);
     linha 2 (CStr "2023-02-01") (CNum 12);
     linha 3 (CStr "2023-03-01") (CNum 9)].

(** Three dated values and one row with no date. *)
Definition serie_com_data_ausente : DataFrame :=
  mkDF ["data"; "valor"]
    [linha 0 (CStr "2023-03-01") (CNum 9);
     linha 1 CNull (CNum 5);
     linha 2 (CStr "2023-01-01") (CNum 10);
     linha 3 (CStr "2023-02-01") (CNum 12)].

(** A value that is a text and not a number. *)
Definition serie_com_texto : DataFrame :=
  mkDF ["data"; "valor"]
    [linha 0 (CStr "2023-01-01") (CStr "abc");
     linha 1 (CStr "2023-02-01") (CNum 12)].

Definition serie_canonica : DataFrame :=
  mkDF ["ds"; "y"]
    [linha 0 (CDate (timestamp_of_date 2023 1 1)) (CNum 10);
     linha 1 (CDate (timestamp_of_date 2023 2 1)) (CNum 12);
     linha 2 (CDate (timestamp_of_date 2023 3 1)) (CNum 9)].

(** What [preparar_dados] returns for [serie_com_texto]. *)
Definition serie_preparada_com_texto : DataFrame :=
  mkDF ["ds"; "y"]
    [linha 0 (CDate (timestamp_of_date 2023 1 1)) (CStr "abc");
     linha 1 (CDate (timestamp_of_date 2023 2 1)) (CNum 12)].

(** A series of one row. *)
Definition serie_de_uma_linha : DataFrame :=
  mkDF ["ds"; "y"] [linha 0 (CDate (timestamp_of_date 2023 1 1)) (CNum 10)].

(** The engine as the dashboard builds it with its default settings. *)
Definition previsor_exemplo : PrevisorSeriesTemporal SimpleProphet.model :=
  novo_previsor "prophet" true false false "multiplicative" (5 # 100)%Q.

(** A forecast with one row in January 2020, one in December 2026 and one
    in January 2027. *)
Definition previsao_exemplo : list ForecastRow :=
  [mkForecastRow (timestamp_of_date 2020 1 15) 10 8 12;
   mkForecastRow (timestamp_of_date 2026 12 1) 11 9 13;
   mkForecastRow (timestamp_of_date 2027 1 5) 12 10 14].

(** Closes a goal [(st1, inr r1) = (st2, inr r2)] whose stores differ by
    the bracketing of appends and whose references are lengths. *)
Ltac store_eq :=
  unfold pd_DataFrame, new_frame;
  repeat rewrite <- app_assoc; simpl;
  repeat rewrite length_app; simpl;
  repeat f_equal; lia.

(** ** Successive trainings *)

(** [treinar] called on the same engine with one frame after the other;
    the outcomes are dropped. *)
Definition treinar_em_sequencia {model : Type} `{ProphetAPI model}
    (self : PrevisorSeriesTemporal model) (dfs : list DataFrame)
  : PrevisorSeriesTemporal model :=
  fold_left (fun s df => fst (treinar s df)) dfs self.

(** ** The value of [processar_dados_deficit] and [processar_dados_iof] *)

Section ProcessedValue.
Context `{PandasConv}.

(** The value the two functions compute inside their [try] block, as a
    composition of the frame operations, with no store. *)
Definition processado_value (rotulo : string) (dados : list record)
  : res DataFrame :=
  let d0 := from_records dados in
  match get_column "data" d0 with
  | inl e => inl e
  | inr data =>
      match to_datetime data with
      | inl e => inl e
      | inr data' =>
          let d1 := set_column "data" data' d0 in
          match get_column "valor" d1 with
          | inl e => inl e
          | inr valor =>
              let d2 := set_column "valor" (to_numeric_coerce valor) d1 in
              match dropna ["valor"] d2 with
              | inl e => inl e
              | inr d3 =>
                  match sort_values "data" d3 with
                  | inl e => inl e
                  | inr d4 => inr (rename_columns [("valor", rotulo)] d4)
                  end
              end
          end
      end
  end.

Definition processado (rotulo : string) (dados : list record) : DataFrame :=
  match processado_value rotulo dados with
  | inr x => x
  | inl _ => empty_frame
  end.

(** The row of the processed frame that comes from the row [r] built from
    a record: its date, in column [i], converted, and its value, in column
    [k], coerced to a number. *)
Definition processed_row (i k : nat) (r : Row) : Row :=
  mkRow (label r)
    (<[k := to_numeric_cell (get_cell k r)]>
       (<[i := to_datetime_or_null (get_cell i r)]> (cells r))).

End ProcessedValue.

(** The order of [sort_values] on the column at position [i]. *)
Definition by_column (i : nat) (r1 r2 : Row) : bool :=
  cell_lt (get_cell i r1) (get_cell i r2).

(** The field [k] of a record, missing when the record has no such field:
    the cell [pd.DataFrame(dados)] holds for it. *)
Definition campo (k : string) (r : record) : cell :=
  match dict_get k r with Some v => v | None => CNull end.

(** ** Files of the dashboard *)

Fixpoint ends_with (c : ascii) (s : string) : bool :=
  match s with
  | EmptyString => false
  | String a EmptyString => Ascii.eqb a c
  | String _ s' => ends_with c s'
  end.

(** [os.path.join(a, b)] on a POSIX system. *)
Definition os_path_join (a b : string) : string :=
  if String.prefix "/" b then b
  else if match a with EmptyString => true | _ => ends_with "/" a end
       then String.append a b
       else String.append a (String.append "/" b).

(** What the program sees of the file system: whether a path exists, and
    the records [json.load] reads from it, [None] when opening or reading
    raises. *)
Record FileSystem : Type := mkFS {
  path_exists : string -> bool;
  json_load : string -> option (list record)
}.

(** [carregar_dados_json]: the directories are tried in order; a file that
    cannot be read is logged and the search goes on. The logger calls are
    left out. *)
Fixpoint carregar_dados_json (fs : FileSystem) (nome_arquivo : string)
    (possiveis_diretorios : list string) : list record :=
  match possiveis_diretorios with
  | [] => []
  | diretorio :: resto =>
      let caminho_arquivo := os_path_join diretorio nome_arquivo in
      if path_exists fs caminho_arquivo then
        match json_load fs caminho_arquivo with
        | Some dados => dados
        | None => carregar_dados_json fs nome_arquivo resto
        end
      else carregar_dados_json fs nome_arquivo resto
  end.

(** A directory from which the file cannot be had. *)
Definition unreadable (fs : FileSystem) (nome_arquivo diretorio : string) : Prop :=
  path_exists fs (os_path_join diretorio nome_arquivo) = false \/
  json_load fs (os_path_join diretorio nome_arquivo) = None.

(** A file system with one readable file and one that is damaged. *)
Definition fs_exemplo : FileSystem :=
  mkFS (fun p => String.eqb p "/app/data/deficit_primario.json"
                 || String.eqb p "data/deficit_primario.json")
       (fun p => if String.eqb p "/app/data/deficit_primario.json"
                 then Some [[("data", CStr "2023-01-01"); ("valor", CNum 10)]]
                 else None).

(** ** The plotting library and [plotar_previsao], [plotar_componentes] *)

(** The arguments [plotar_previsao] gives to [fig.update_layout]. *)
Record Layout : Type := mkLayout {
  title : string;
  xaxis_title : string;
  yaxis_title : string;
  hovermode : string
}.

(** [plot_plotly] and [plot_components_plotly] of the forecasting library
    and [update_layout] of the figure; [None] when the call raises. *)
Class PlotAPI (model fig : Type) : Type := {
  plot_plotly : model -> list ForecastRow -> option fig;
  plot_components_plotly : model -> list ForecastRow -> option fig;
  update_layout : fig -> Layout -> option fig
}.

(** Why no figure came back: the branch that logs the error and returns
    [None]. *)
Inductive PlotError : Type :=
  | PlotModelNotTrained
  | PlotUnsupportedModelKind
  | PlotFailure.

Section Plotar.
Context {model fig : Type} `{PlotAPI model fig}.

Definition plotar_previsao (self : PrevisorSeriesTemporal model)
    (previsao : list ForecastRow) (titulo : string) : PlotError + fig :=
  match modelo self with
  | None => inl PlotModelNotTrained
  | Some m =>
      if String.eqb (tipo_modelo self) "prophet" then
        match plot_plotly m previsao with
        | None => inl PlotFailure
        | Some f =>
            match update_layout f (mkLayout titulo "Data" "Valor" "x unified") with
            | None => inl PlotFailure
            | Some f' => inr f'
            end
        end
      else inl PlotUnsupportedModelKind
  end.

Definition plotar_componentes (self : PrevisorSeriesTemporal model)
    (previsao : list ForecastRow) : PlotError + fig :=
  match modelo self with
  | None => inl PlotModelNotTrained
  | Some m =>
      if String.eqb (tipo_modelo self) "prophet" then
        match plot_components_plotly m previsao with
        | None => inl PlotFailure
        | Some f => inr f
        end
      else inl PlotUnsupportedModelKind
  end.

End Plotar.

(** ** The forecast of the selected indicator, in [main] *)

(** What the page shows under the button. *)
Inductive erro_pagina : Type :=
  | ErroResolucao (m : mensagem)
  | ErroGerarPrevisao
  | ErroTreinarModelo.

Inductive elemento (fig : Type) : Type :=
  | ElErro (e : erro_pagina)
  | ElGrafico (f : fig)
  | ElTabela (linhas : list LinhaTabela).

Arguments ElErro {fig}.
Arguments ElGrafico {fig}.
Arguments ElTabela {fig}.

(** [str(n)] for an integer. *)
Definition str_int (n : Z) : string := NilZero.string_of_int (Z.to_int n).

(** The title of the forecast chart. *)
Definition titulo_previsao (nome : string) (periodo : Z) : string :=
  String.append "Previsão de "
    (String.append nome
       (String.append " para " (String.append (str_int periodo) " meses"))).

(** [st.plotly_chart(f)] when the figure is there. *)
Definition mostra_grafico {fig : Type} (f : PlotError + fig) : list (elemento fig) :=
  match f with
  | inr f' => [ElGrafico f']
  | inl _ => []
  end.

(** The value a computation returns. *)
Definition returned_value {A : Type} (m : M A) (st : store) : option A :=
  match m st with
  | (_, inr a) => Some a
  | (_, inl _) => None
  end.

Section GerarPrevisao.
Context `{PandasConv}.
Context {model fig : Type} `{ProphetAPI model} `{PlotAPI model fig}.

(** The body of [if st.button("Gerar Previsão")], for an indicator that is
    in [dados_indicadores]: [df] is its frame, [coluna_valor] and [nome] come
    from its configuration, then the settings of the page, and [agora] is
    the time of day. The result lists what the page shows, in order. *)
Definition gerar_previsao (df : ref) (coluna_valor : option string)
    (nome : string) (sazonalidade_anual sazonalidade_semanal
    sazonalidade_diaria : bool) (modo_sazonalidade : string) (escala_prior : Q)
    (periodo_previsao : Z) (agora : Timestamp) : M (list (elemento fig)) :=
  d ← deref df;
  let '(coluna_valor, mensagens) := obter_coluna_valor coluna_valor nome d in
  let erros := map (fun m => ElErro (ErroResolucao m)) mensagens in
  match coluna_valor with
  | Some c =>
      if truthy c then
        let previsor : PrevisorSeriesTemporal model :=
          novo_previsor "prophet" sazonalidade_anual sazonalidade_semanal
            sazonalidade_diaria modo_sazonalidade escala_prior in
        df_preparado ← preparar_dados df "data" c;
        dp ← deref df_preparado;
        match treinar previsor dp with
        | (previsor, inr tt) =>
            match prever previsor periodo_previsao with
            | inr previsao =>
                let fig_previsao :=
                  plotar_previsao previsor previsao
                    (titulo_previsao nome periodo_previsao) in
                let fig_componentes := plotar_componentes previsor previsao in
                mret (erros ++ mostra_grafico fig_previsao
                            ++ mostra_grafico fig_componentes
                            ++ [ElTabela (tabela_previsao agora previsao)])
            | inl _ => mret (erros ++ [ElErro ErroGerarPrevisao])
            end
        | (_, inl _) => mret (erros ++ [ElErro ErroTreinarModelo])
        end
      else mret erros
  | None => mret erros
  end.

End GerarPrevisao.

(** ** A simple instance of the plotting library

    A figure records the forecast it draws and the layout it was given;
    like the library, the two plotting functions raise on a model that was
    not fitted. It is the instance the examples run with. *)
Module SimplePlot.

Record fig : Type := mkFig {
  drawn : list ForecastRow;
  layout : option Layout
}.

Definition plot (m : SimpleProphet.model) (previsao : list ForecastRow)
  : option fig :=
  match SimpleProphet.history m with
  | None => None
  | Some _ => Some (mkFig previsao None)
  end.

Definition update (f : fig) (l : Layout) : option fig :=
  Some (mkFig (drawn f) (Some l)).

#[global] Instance api : PlotAPI SimpleProphet.model fig :=
  {| plot_plotly := plot;
     plot_components_plotly := plot;
     update_layout := update |}.

End SimplePlot.

(** The outcome of the forecast flow once the frame is prepared. *)
Section Desfecho.
Context {model fig : Type} `{ProphetAPI model} `{PlotAPI model fig}.

Definition desfecho (dp : DataFrame) (erros : list (elemento fig))
    (nome : string) (anual semanal diaria : bool) (modo : string) (escala : Q)
    (periodo : Z) (agora : Timestamp) : list (elemento fig) :=
  match treinar (novo_previsor "prophet" anual semanal diaria modo escala) dp with
  | (previsor, inr tt) =>
      match prever previsor periodo with
      | inr previsao =>
          erros
          ++ mostra_grafico
               (plotar_previsao previsor previsao (titulo_previsao nome periodo))
          ++ mostra_grafico (plotar_componentes previsor previsao)
          ++ [ElTabela (tabela_previsao agora previsao)]
      | inl _ => erros ++ [ElErro ErroGerarPrevisao]
      end
  | (_, inl _) => erros ++ [ElErro ErroTreinarModelo]
  end.

End Desfecho.

Definition is_erro {fig : Type} (e : elemento fig) : bool :=
  match e with ElErro _ => true | _ => false end.

(** ** The years selected by default, in [main] *)

(** [anos_disponiveis[-3:] if len(anos_disponiveis) > 3 else
    anos_disponiveis], for the sorted list of the years of the data. *)
Definition default_anos (anos_disponiveis : list Z) : list Z :=
  if (3 <? length anos_disponiveis)%nat
  then drop (length anos_disponiveis - 3) anos_disponiveis
  else anos_disponiveis.

(** ** The indicators read from JSON files, in [main] *)

(** One of the two blocks of [main] that fall back on a JSON file:
    [dados_indicadores] maps the id of an indicator to its frame; when the
    id is not there, or its frame is empty, the file is looked for,
    processed, and the frame is registered if it is not empty. *)
Definition carregar_de_json (fs : FileSystem) (diretorios : list string)
    (id arquivo : string) (processar : list record -> M ref)
    (dados_indicadores : gmap string ref) : M (gmap string ref) :=
  falta ← match dados_indicadores !! id with
          | None => mret true
          | Some r => d ← deref r; mret (df_empty d)
          end;
  if falta : bool then
    match carregar_dados_json fs arquivo diretorios with
    | [] => mret dados_indicadores
    | dados =>
        df ← processar dados;
        d ← deref df;
        if df_empty d then mret dados_indicadores
        else mret (<[id := df]> dados_indicadores)
    end
  else mret dados_indicadores.

Section IndicadoresJson.
Context `{PandasConv}.

(** The two blocks, one after the other. *)
Definition carregar_indicadores_json (fs : FileSystem) (diretorios : list string)
    (dados_indicadores : gmap string ref) : M (gmap string ref) :=
  dados_indicadores ←
    carregar_de_json fs diretorios "deficit_primario" "deficit_primario.json"
      processar_dados_deficit dados_indicadores;
  carregar_de_json fs diretorios "iof" "arrecadacao_iof.json"
    processar_dados_iof dados_indicadores.

End IndicadoresJson.

(** Every indicator registered has a frame, and the frame is not empty. *)
Definition all_non_empty (st : store) (dados_indicadores : gmap string ref) : Prop :=
  forall id r, dados_indicadores !! id = Some r ->
               exists d, st !! r = Some d /\ df_empty d = false.

(** ** The order among equal keys

    [df.sort_values(by=c)] sorts with [kind="quicksort"], which promises a
    sorted result and no order among rows with equal keys. [sort_values]
    above fixes that order (the order of the input). The definitions below
    leave the sort open: the same frame operations and the same
    [preparar_dados], for any sort [srt] of the rows. *)
Definition sorter : Type := (Row -> Row -> bool) -> list Row -> list Row.

(** What every sort does: it returns the rows it was given, in order. *)
Definition correct_sorter (srt : sorter) : Prop :=
  forall (lt : Row -> Row -> bool) (l : list Row),
    (forall a b, lt a b = true -> lt b a = false) ->
    srt lt l ≡ₚ l /\ not_descending lt (srt lt l).

Definition sort_values_with (srt : sorter) (c : string) (d : DataFrame)
  : res DataFrame :=
  match col_index c (columns d) with
  | None => inl (KeyError c)
  | Some i =>
      inr (mkDF (columns d)
             (srt (fun r1 r2 => cell_lt (get_cell i r1) (get_cell i r2))
                  (rows d)))
  end.

Definition df_sort_values_with (srt : sorter) (df : ref) (c : string) : M ref :=
  d ← deref df; d' ← lift (sort_values_with srt c d); new_frame d'.

Section PrepararDadosWith.
Context `{PandasConv}.

(** [preparar_dados] (previsao.py, lines 53 to 90), with the sort of
    [sort_values] left open: the same guard, the same [try] block and the
    same [except] branch, step by step, and [srt] where [df.sort_values]
    sorts the rows. *)
Definition preparar_dados_with (srt : sorter) (df : ref)
    (coluna_data coluna_valor : string) : M ref :=
  d ← deref df;
  if df_empty d then pd_DataFrame
  else
    try_except
      (sel ← df_getitem_columns df [coluna_data; coluna_valor];
       df_prophet ← df_copy sel;
       _ ← df_rename_inplace df_prophet [(coluna_data, "ds"); (coluna_valor, "y")];
       ds ← df_getitem df_prophet "ds";
       ds' ← lift (to_datetime ds);
       _ ← df_setitem df_prophet "ds" ds';
       df_prophet ← df_dropna df_prophet ["ds"; "y"];
       df_prophet ← df_sort_values_with srt df_prophet "ds";
       mret df_prophet)
      (fun _ => pd_DataFrame).

Definition prepared_value_with (srt : sorter) (d : DataFrame)
    (coluna_data coluna_valor : string) : res DataFrame :=
  match select_columns [coluna_data; coluna_valor] d with
  | inl e => inl e
  | inr sel =>
      let ren := rename_columns [(coluna_data, "ds"); (coluna_valor, "y")] sel in
      match get_column "ds" ren with
      | inl e => inl e
      | inr ds =>
          match to_datetime ds with
          | inl e => inl e
          | inr ds' =>
              match dropna ["ds"; "y"] (set_column "ds" ds' ren) with
              | inl e => inl e
              | inr dr => sort_values_with srt "ds" dr
              end
          end
      end
  end.

Definition prepared_with (srt : sorter) (d : DataFrame)
    (coluna_data coluna_valor : string) : DataFrame :=
  if df_empty d then empty_frame
  else match prepared_value_with srt d coluna_data coluna_valor with
       | inr x => x
       | inl _ => empty_frame
       end.

End PrepararDadosWith.

(** A sort that is correct and not stable: a row goes after the rows with
    the same key that were placed before it, so rows with equal keys come
    out in the reverse of their input order. *)
Section SortLast.
Context {A : Type} (lt : A -> A -> bool).

Fixpoint insert_last (x : A) (l : list A) : list A :=
  match l with
  | [] => [x]
  | h :: t => if lt x h then x :: h :: t else h :: insert_last x t
  end.

Fixpoint sort_by_last (l : list A) : list A :=
  match l with
  | [] => []
  | x :: t => insert_last x (sort_by_last t)
  end.

End SortLast.

Definition unstable_sorter : sorter := fun lt l => sort_by_last lt l.

Definition stable_sorter : sorter := fun lt l => sort_by lt l.

(** The timestamp of a prepared row, and timestamps that strictly grow
    from one row to the next (no two rows with the same date). *)
Definition ds_key (r : Row) : Z :=
  match get_cell 0 r with CDate t => t | _ => 0 end.

Fixpoint strictly_ascending (rs : list Row) : bool :=
  match rs with
  | r1 :: ((r2 :: _) as rs') => (ds_key r1 <? ds_key r2) && strictly_ascending rs'
  | _ => true
  end.


(** A series of two dates far apart, already prepared. *)
Definition serie_de_duas_datas : DataFrame :=
  mkDF ["ds"; "y"]
    [linha 0 (CDate (timestamp_of_date 2020 1 15)) (CNum 10);
     linha 1 (CDate (timestamp_of_date 2026 11 30)) (CNum 12)].

(** * Properties *)

(** ** Lemmas on the store *)

Lemma bind_run {A B : Type} (m : M A) (f : A -> M B) (st : store) :
  (m ≫= f) st =
  match m st with
  | (st', inl e) => (st', inl e)
  | (st', inr a) => f a st'
  end.
Proof. reflexivity. Qed.

Lemma lookup_snoc (st : store) (d : DataFrame) :
  (st ++ [d]) !! length st = Some d.
Proof. rewrite lookup_app_r by lia. by rewrite Nat.sub_diag. Qed.

Lemma insert_snoc (st : store) (d d' : DataFrame) :
  <[length st := d']> (st ++ [d]) = st ++ [d'].
Proof.
  rewrite insert_app_r_alt by lia. by rewrite Nat.sub_diag.
Qed.

Lemma deref_snoc (st : store) (d : DataFrame) :
  deref (length st) (st ++ [d]) = (st ++ [d], inr d).
Proof. unfold deref. by rewrite lookup_snoc. Qed.

Lemma deref_some (st : store) (r : ref) (d : DataFrame) :
  st !! r = Some d -> deref r st = (st, inr d).
Proof. intros Hr. unfold deref. by rewrite Hr. Qed.

Lemma assign_snoc (st : store) (d d' : DataFrame) :
  assign (length st) d' (st ++ [d]) = (st ++ [d'], inr tt).
Proof. unfold assign. by rewrite insert_snoc. Qed.

Lemma lookup_result (st extra : store) (d : DataFrame) :
  (st ++ extra ++ [d]) !! (length st + length extra)%nat = Some d.
Proof.
  rewrite app_assoc, <- length_app. apply lookup_snoc.
Qed.

(** What each method does to the store. *)

Lemma df_getitem_columns_run (st : store) (df : ref) (d : DataFrame) names :
  st !! df = Some d ->
  df_getitem_columns df names st =
  match select_columns names d with
  | inl e => (st, inl e)
  | inr d' => (st ++ [d'], inr (length st))
  end.
Proof.
  intros Hd. unfold df_getitem_columns.
  rewrite bind_run, (deref_some _ _ _ Hd), bind_run. unfold lift.
  by destruct (select_columns names d).
Qed.

Lemma df_copy_snoc (st : store) (d : DataFrame) :
  df_copy (length st) (st ++ [d]) =
  ((st ++ [d]) ++ [d], inr (length (st ++ [d]))).
Proof. unfold df_copy. by rewrite bind_run, deref_snoc. Qed.

Lemma df_rename_inplace_snoc (st : store) (d : DataFrame) m :
  df_rename_inplace (length st) m (st ++ [d]) =
  (st ++ [rename_columns m d], inr tt).
Proof.
  unfold df_rename_inplace. by rewrite bind_run, deref_snoc, assign_snoc.
Qed.

Lemma df_getitem_snoc (st : store) (d : DataFrame) c :
  df_getitem (length st) c (st ++ [d]) = (st ++ [d], get_column c d).
Proof. unfold df_getitem. by rewrite bind_run, deref_snoc. Qed.

Lemma df_setitem_snoc (st : store) (d : DataFrame) c col :
  df_setitem (length st) c col (st ++ [d]) =
  (st ++ [set_column c col d], inr tt).
Proof. unfold df_setitem. by rewrite bind_run, deref_snoc, assign_snoc. Qed.

Lemma df_dropna_snoc (st : store) (d : DataFrame) names :
  df_dropna (length st) names (st ++ [d]) =
  match dropna names d with
  | inl e => (st ++ [d], inl e)
  | inr d' => ((st ++ [d]) ++ [d'], inr (length (st ++ [d])))
  end.
Proof.
  unfold df_dropna. rewrite bind_run, deref_snoc, bind_run. unfold lift.
  by destruct (dropna names d).
Qed.

Lemma df_sort_values_snoc (st : store) (d : DataFrame) c :
  df_sort_values (length st) c (st ++ [d]) =
  match sort_values c d with
  | inl e => (st ++ [d], inl e)
  | inr d' => ((st ++ [d]) ++ [d'], inr (length (st ++ [d])))
  end.
Proof.
  unfold df_sort_values. rewrite bind_run, deref_snoc, bind_run. unfold lift.
  by destruct (sort_values c d).
Qed.

Section PrepararDadosRun.
Context `{PandasConv}.

(** The run of [preparar_dados]: the store only grows, and the frame
    returned is the last one allocated, with the value [prepared]. *)
Lemma preparar_dados_run (st : store) (df : ref) (d : DataFrame) cd cv :
  st !! df = Some d ->
  exists extra : store,
    preparar_dados df cd cv st =
    (st ++ extra ++ [prepared d cd cv], inr (length st + length extra)%nat).
Proof.
  intros Hd. unfold preparar_dados, prepared, prepared_value.
  rewrite bind_run, (deref_some _ _ _ Hd).
  destruct (df_empty d).
  { exists []. store_eq. }
  unfold try_except.
  rewrite bind_run, (df_getitem_columns_run _ _ _ _ Hd).
  destruct (select_columns [cd; cv] d) as [e | sel].
  { exists []. store_eq. }
  rewrite bind_run, df_copy_snoc.
  rewrite bind_run, df_rename_inplace_snoc.
  set (ren := rename_columns _ sel).
  rewrite bind_run, df_getitem_snoc.
  destruct (get_column "ds" ren) as [e | ds].
  { exists [sel; ren]. store_eq. }
  rewrite bind_run. unfold lift at 1.
  destruct (to_datetime ds) as [e | ds'].
  { exists [sel; ren]. store_eq. }
  rewrite bind_run, df_setitem_snoc.
  set (conv := set_column "ds" ds' ren).
  rewrite bind_run, df_dropna_snoc.
  destruct (dropna ["ds"; "y"] conv) as [e | dr].
  { exists [sel; conv]. store_eq. }
  rewrite bind_run, df_sort_values_snoc.
  destruct (sort_values "ds" dr) as [e | so].
  { exists [sel; conv; dr]. store_eq. }
  exists [sel; conv; dr]. store_eq.
Qed.

End PrepararDadosRun.

(** ** The value of [preparar_dados] *)

Lemma forallb_map_compose {A B : Type} (f : B -> bool) (g : A -> B) (l : list A) :
  forallb f (map g l) = forallb (fun x => f (g x)) l.
Proof. induction l as [| x l IH]; [done |]. simpl. by rewrite IH. Qed.

Lemma rename_two (cd cv : string) :
  cd <> cv ->
  map (rename_label [(cd, "ds"); (cv, "y")]) [cd; cv] = ["ds"; "y"].
Proof.
  intros Hne. simpl.
  rewrite (String.eqb_refl cv), (String.eqb_refl cd).
  destruct (String.eqb_spec cd cv) as [-> | _]; [done |]. reflexivity.
Qed.

Lemma rename_same (c : string) :
  map (rename_label [(c, "ds"); (c, "y")]) [c; c] = ["y"; "y"].
Proof. simpl. by rewrite (String.eqb_refl c). Qed.

Section PreparedFacts.
Context `{PandasConv}.

Lemma to_datetime_spec (col : list cell) :
  to_datetime col =
  if forallb date_converts col then inr (map to_datetime_or_null col)
  else inl ValueError.
Proof.
  induction col as [| c col IH]; [done |].
  simpl. unfold date_converts, to_datetime_or_null.
  destruct (to_datetime_cell c) as [e | c'] eqn:Hc.
  - simpl. destruct c; simpl in Hc; try discriminate.
    + destruct (epoch_of_num q); by inversion Hc.
    + destruct (parse_date s) as [[t |] |]; by inversion Hc.
  - simpl. rewrite IH. by destruct (forallb _ col).
Qed.

Lemma set_cells_prepared (i j : nat) (rs : list Row) :
  set_cells 0
    (map (fun r => mkRow (label r) [get_cell i r; get_cell j r]) rs)
    (map (fun r => to_datetime_or_null (get_cell i r)) rs) =
  map (prepared_row i j) rs.
Proof.
  induction rs as [| r rs IH]; [done |].
  cbn [map set_cells]. rewrite IH. reflexivity.
Qed.

Lemma prepared_frame (d : DataFrame) (cd cv : string) (i j : nat) :
  df_empty d = false ->
  col_index cd (columns d) = Some i ->
  col_index cv (columns d) = Some j ->
  cd <> cv ->
  prepared d cd cv =
  if forallb (fun r => date_converts (get_cell i r)) (rows d)
  then mkDF ["ds"; "y"]
         (sort_by by_ds (List.filter complete_row (map (prepared_row i j) (rows d))))
  else empty_frame.
Proof.
  intros He Hi Hj Hne. unfold prepared, prepared_value, select_columns.
  rewrite He. simpl col_indices. rewrite Hi, Hj.
  unfold rename_columns. cbn [columns rows]. rewrite (rename_two _ _ Hne).
  unfold get_column. cbn [columns rows col_index String.eqb Ascii.eqb Bool.eqb].
  rewrite map_map. cbn [get_cell cells nth map].
  rewrite to_datetime_spec, forallb_map_compose.
  destruct (forallb _ (rows d)); [| done].
  unfold set_column, dropna, sort_values.
  cbn [columns rows col_index col_indices String.eqb Ascii.eqb Bool.eqb].
  rewrite map_map, set_cells_prepared.
  reflexivity.
Qed.
End PreparedFacts.

(** ** The sort *)

Section SortFacts.
Context {A : Type} (lt : A -> A -> bool).

Lemma insert_sorted_perm (x : A) (l : list A) :
  insert_sorted lt x l ≡ₚ x :: l.
Proof.
  induction l as [| h t IH]; [done |]. simpl.
  destruct (lt h x); [| done]. rewrite IH. apply Permutation_swap.
Qed.

Lemma sort_by_perm (l : list A) : sort_by lt l ≡ₚ l.
Proof.
  induction l as [| x t IH]; [done |]. simpl.
  by rewrite insert_sorted_perm, IH.
Qed.

Lemma sort_by_fixed (l : list A) : not_descending lt l -> sort_by lt l = l.
Proof.
  induction l as [| x t IH]; [done |]. intros Hl. simpl.
  destruct t as [| h t'].
  - reflexivity.
  - destruct Hl as [Hx Ht]. rewrite (IH Ht). simpl. by rewrite Hx.
Qed.

End SortFacts.

(** ** [preparar_dados]: what it returns *)

Section PrepararDadosFacts.
Context `{PandasConv}.

Lemma preparar_dados_returns (st : store) (df : ref) (d : DataFrame) cd cv :
  st !! df = Some d ->
  returned_frame (preparar_dados df cd cv) st = Some (prepared d cd cv).
Proof.
  intros Hd. unfold returned_frame.
  destruct (preparar_dados_run st df d cd cv Hd) as [extra ->].
  apply lookup_result.
Qed.

Lemma preparar_dados_dangling (st : store) (df : ref) cd cv :
  st !! df = None -> preparar_dados df cd cv st = (st, inl DanglingRef).
Proof.
  intros Hd. unfold preparar_dados. rewrite bind_run. unfold deref.
  by rewrite Hd.
Qed.

Lemma to_datetime_or_null_cases (c : cell) :
  to_datetime_or_null c = CNull \/ exists t, to_datetime_or_null c = CDate t.
Proof.
  unfold to_datetime_or_null.
  destruct c as [| q | s | t]; simpl; eauto.
  - destruct (epoch_of_num q); eauto.
  - destruct (parse_date s) as [[t |] |]; eauto.
Qed.

(** The frame is the empty one or holds the complete prepared rows. *)
Lemma prepared_cases (d : DataFrame) cd cv :
  prepared d cd cv = empty_frame \/
  exists i j,
    col_index cd (columns d) = Some i /\
    col_index cv (columns d) = Some j /\
    prepared d cd cv =
    mkDF ["ds"; "y"]
      (sort_by by_ds (List.filter complete_row (map (prepared_row i j) (rows d)))).
Proof.
  destruct (df_empty d) eqn:He.
  { left. unfold prepared. by rewrite He. }
  destruct (col_index cd (columns d)) as [i |] eqn:Hi; cycle 1.
  { left. unfold prepared, prepared_value, select_columns. rewrite He.
    simpl col_indices. by rewrite Hi. }
  destruct (col_index cv (columns d)) as [j |] eqn:Hj; cycle 1.
  { left. unfold prepared, prepared_value, select_columns. rewrite He.
    simpl col_indices. by rewrite Hi, Hj. }
  destruct (String.eqb_spec cd cv) as [-> | Hne].
  { left. unfold prepared, prepared_value, select_columns. rewrite He.
    simpl col_indices. rewrite Hj.
    unfold rename_columns. cbn [columns rows]. by rewrite rename_same. }
  rewrite (prepared_frame d cd cv i j He Hi Hj Hne).
  destruct (forallb _ (rows d)); eauto 6.
Qed.

End PrepararDadosFacts.

(** ** [preparar_dados]: the input is left as it was *)

(** C9. [preparar_dados] never changes a frame that existed before the
    call: the store it leaves begins with the store it found, so the
    caller's table [df] has the columns, rows and values it had. *)
Theorem preparar_dados_keeps_input `{PandasConv}
    (st : store) (df : ref) (cd cv : string) :
  take (length st) (final_store (preparar_dados df cd cv) st) = st /\
  final_store (preparar_dados df cd cv) st !! df = st !! df.
Proof.
  unfold final_store.
  destruct (st !! df) as [d |] eqn:Hd.
  - destruct (preparar_dados_run st df d cd cv Hd) as [extra ->]. cbn [fst].
    split; [apply take_app_length |].
    rewrite lookup_app_l; [done |]. by eapply lookup_lt_Some.
  - rewrite (preparar_dados_dangling st df cd cv Hd). cbn [fst].
    split; [apply firstn_all | done].
Qed.

(** ** [preparar_dados]: dates that do not parse *)

(** C2, as stated, fails: with one row whose date is not a date among three
    good rows, the conversion of the date column raises, the [except]
    branch returns [pd.DataFrame()], and the result has no row, not three. *)
Lemma preparar_dados_invalid_date_empties :
  Iso.date_of_text "not-a-date" = None /\
  returned_frame (preparar_dados 0%nat "data" "valor") [serie_com_data_invalida]
  = Some empty_frame /\
  df_len empty_frame <> 3%nat.
Proof.
  split; [vm_compute; reflexivity |].
  split; [vm_compute; reflexivity | discriminate].
Qed.

(** ** [preparar_dados]: the rows of the result *)

(** C5, as stated, fails: the value column is not coerced. A value that is
    a text and not a number is not missing, so its row stays, and the
    result holds a value that is not numeric. *)
Lemma preparar_dados_keeps_text_value :
  returned_frame (preparar_dados 0%nat "data" "valor") [serie_com_texto] =
  Some (mkDF ["ds"; "y"]
          [linha 0 (CDate (timestamp_of_date 2023 1 1)) (CStr "abc");
           linha 1 (CDate (timestamp_of_date 2023 2 1)) (CNum 12)]) /\
  is_numeric_cell (CStr "abc") = false.
Proof. split; vm_compute; reflexivity. Qed.

(** ** [preparar_dados] on a canonical series *)

Lemma canonical_row_cells (r : Row) :
  canonical_row r = true -> exists t q, cells r = [CDate t; CNum q].
Proof.
  unfold canonical_row.
  destruct (cells r) as [| c1 [| c2 [| c3 l]]]; try discriminate;
    destruct c1; try discriminate; destruct c2; try discriminate; eauto.
Qed.

Lemma ascending_not_descending (rs : list Row) :
  ascending rs = true -> not_descending by_ds rs.
Proof.
  induction rs as [| r1 rs IH]; [done |].
  destruct rs as [| r2 rs']; [done |].
  intros Hasc. cbn [ascending] in Hasc.
  apply andb_true_iff in Hasc. destruct Hasc as [H12 Hrest].
  split; [| by apply IH].
  apply negb_true_iff in H12. exact H12.
Qed.

Section Canonical.
Context `{PandasConv}.


End Canonical.

(** ** [processar_dados_deficit] and [processar_dados_iof] *)

Lemma col_index_in_columns (c : string) (cols : list string) (i : nat) :
  col_index c cols = Some i -> in_columns c cols = true.
Proof.
  revert i. induction cols as [| x cols IH]; [done |]. intros i. simpl.
  destruct (String.eqb c x); [done |].
  destruct (col_index c cols); [| done]. intros _. by eapply IH.
Qed.

Lemma in_columns_In (c : string) (cols : list string) :
  in_columns c cols = true <-> In c cols.
Proof.
  induction cols as [| x cols IH]; [done |]. simpl.
  destruct (String.eqb_spec c x) as [-> | Hne].
  - split; auto.
  - rewrite IH. split; [auto |]. intros [Heq | Hin]; [congruence | done].
Qed.

Lemma dropna_columns (names : list string) (d d' : DataFrame) :
  dropna names d = inr d' -> columns d' = columns d.
Proof.
  unfold dropna. destruct (col_indices names (columns d)); [done |].
  by intros [= <-].
Qed.

Lemma sort_values_columns (c : string) (d d' : DataFrame) :
  sort_values c d = inr d' -> columns d' = columns d.
Proof.
  unfold sort_values. destruct (col_index c (columns d)); [| done].
  by intros [= <-].
Qed.

Lemma set_column_existing (c : string) (col : list cell) (d : DataFrame) (i : nat) :
  col_index c (columns d) = Some i -> columns (set_column c col d) = columns d.
Proof. intros Hi. unfold set_column. by rewrite Hi. Qed.

(** After the renaming of [valor], no column has that label. *)
Lemma renamed_valor_absent (rotulo : string) (cols : list string) :
  rotulo <> "valor" ->
  in_columns "valor" (map (rename_label [("valor", rotulo)]) cols) = false.
Proof.
  intros Hne. apply not_true_is_false. rewrite in_columns_In, in_map_iff.
  intros (c & Hc & _).
  cbn [rename_label map fst in_columns] in Hc.
  destruct (String.eqb_spec c "valor") as [Heq | Hcne]; congruence.
Qed.

Lemma renamed_valor_present (rotulo : string) (cols : list string) :
  in_columns "valor" cols = true ->
  in_columns rotulo (map (rename_label [("valor", rotulo)]) cols) = true.
Proof.
  rewrite !in_columns_In, in_map_iff. intros Hin.
  exists "valor". split; [reflexivity | exact Hin].
Qed.

Section ProcessarFacts.
Context `{PandasConv}.

(** The run of [processar_dados_deficit] and [processar_dados_iof]: the
    store only grows; the frame returned is the last one allocated, and it
    is the empty frame of the [except] branch or a frame whose column
    [valor] was renamed. *)
Lemma processar_dados_run (st : store) (rotulo : string) (dados : list record) :
  exists (extra : store) (res : DataFrame),
    processar_dados_como rotulo dados st =
    (st ++ extra ++ [res], inr (length st + length extra)%nat) /\
    (res = empty_frame \/
     exists d0, res = rename_columns [("valor", rotulo)] d0 /\
                in_columns "valor" (columns d0) = true).
Proof.
  unfold processar_dados_como, try_except.
  rewrite bind_run. unfold new_frame at 1.
  set (d0 := from_records dados).
  rewrite bind_run, df_getitem_snoc.
  destruct (get_column "data" d0) as [e | data].
  { exists [d0], empty_frame. split; [store_eq | by left]. }
  rewrite bind_run. unfold lift at 1.
  destruct (to_datetime data) as [e | data'].
  { exists [d0], empty_frame. split; [store_eq | by left]. }
  rewrite bind_run, df_setitem_snoc.
  set (d1 := set_column "data" data' d0).
  rewrite bind_run, df_getitem_snoc.
  destruct (get_column "valor" d1) as [e | valor] eqn:Hvalor.
  { exists [d1], empty_frame. split; [store_eq | by left]. }
  rewrite bind_run, df_setitem_snoc.
  set (d2 := set_column "valor" (to_numeric_coerce valor) d1).
  assert (in_columns "valor" (columns d2) = true) as Hd2.
  { unfold get_column in Hvalor.
    destruct (col_index "valor" (columns d1)) as [k |] eqn:Hk; [| done].
    unfold d2. rewrite (set_column_existing _ _ _ _ Hk).
    by eapply col_index_in_columns. }
  rewrite bind_run, df_dropna_snoc.
  destruct (dropna ["valor"] d2) as [e | d3] eqn:Hd3.
  { exists [d2], empty_frame. split; [store_eq | by left]. }
  rewrite bind_run, df_sort_values_snoc.
  destruct (sort_values "data" d3) as [e | d4] eqn:Hd4.
  { exists [d2; d3], empty_frame. split; [store_eq | by left]. }
  rewrite bind_run, df_rename_inplace_snoc.
  exists [d2; d3], (rename_columns [("valor", rotulo)] d4).
  split; [store_eq |]. right. exists d4. split; [done |].
  by rewrite (sort_values_columns _ _ _ Hd4), (dropna_columns _ _ _ Hd3).
Qed.

End ProcessarFacts.

(** ** The value column of an indicator *)

(** The column the resolver returns is a column of the table. *)
Lemma obter_coluna_valor_in_columns (hint : option string) (nome : string)
    (d : DataFrame) (c : string) :
  fst (obter_coluna_valor hint nome d) = Some c ->
  in_columns c (columns d) = true.
Proof.
  unfold obter_coluna_valor.
  destruct hint as [h |].
  - destruct (truthy h && in_columns h (columns d)) eqn:Hh.
    + cbn [fst]. intros [= <-].
      apply andb_true_iff in Hh. tauto.
    + revert c. clear Hh.
      destruct (in_columns "valor" (columns d)) eqn:H1;
        [cbn [fst]; by intros c [= <-] |].
      destruct (in_columns "deficit" (columns d)) eqn:H2;
        [cbn [fst]; by intros c [= <-] |].
      destruct (in_columns "iof" (columns d)) eqn:H3;
        [cbn [fst]; by intros c [= <-] |].
      intros c.
      destruct (List.filter _ (columns d)) as [| c0 l] eqn:Hf; [done |].
      cbn [fst]. intros [= <-].
      assert (In c0 (List.filter
                       (fun col => negb (in_columns col ["data"; "ano"])
                                   && is_numeric_dtype d col) (columns d))) as Hin.
      { rewrite Hf. by left. }
      apply filter_In in Hin. apply in_columns_In. tauto.
  - revert c.
    destruct (in_columns "valor" (columns d)) eqn:H1;
      [cbn [fst]; by intros c [= <-] |].
    destruct (in_columns "deficit" (columns d)) eqn:H2;
      [cbn [fst]; by intros c [= <-] |].
    destruct (in_columns "iof" (columns d)) eqn:H3;
      [cbn [fst]; by intros c [= <-] |].
    intros c.
    destruct (List.filter _ (columns d)) as [| c0 l] eqn:Hf; [done |].
    cbn [fst]. intros [= <-].
    assert (In c0 (List.filter
                     (fun col => negb (in_columns col ["data"; "ano"])
                                 && is_numeric_dtype d col) (columns d))) as Hin.
    { rewrite Hf. by left. }
    apply filter_In in Hin. apply in_columns_In. tauto.
Qed.

Section ProcessarColumns.
Context `{PandasConv}.

Lemma processar_dados_como_columns (st : store) (rotulo : string)
    (dados : list record) :
  rotulo <> "valor" ->
  exists d,
    returned_frame (processar_dados_como rotulo dados) st = Some d /\
    in_columns "valor" (columns d) = false /\
    (d = empty_frame \/ in_columns rotulo (columns d) = true) /\
    (forall hint nome, fst (obter_coluna_valor hint nome d) <> Some "valor").
Proof.
  intros Hne.
  destruct (processar_dados_run st rotulo dados) as (extra & res & Hrun & Hres).
  exists res. unfold returned_frame. rewrite Hrun, lookup_result.
  assert (in_columns "valor" (columns res) = false) as Habs.
  { destruct Hres as [-> | (d0 & -> & _)]; [done |].
    by apply renamed_valor_absent. }
  split; [done |]. split; [done |]. split.
  - destruct Hres as [-> | (d0 & -> & Hin)]; [by left | right].
    by apply renamed_valor_present.
  - intros hint nome Hsel.
    apply obter_coluna_valor_in_columns in Hsel. congruence.
Qed.

End ProcessarColumns.

(** C10. The table [processar_dados_deficit] returns has no column named
    [valor]: it is the empty table of the error branch, or a table whose
    value column is now named [deficit]; so the resolver never answers
    [valor] for it, whatever the configured hint. The same holds for
    [processar_dados_iof] with the label [iof]. *)
Theorem processar_dados_rename_valor `{PandasConv}
    (st : store) (dados : list record) :
  (exists d,
     returned_frame (processar_dados_deficit dados) st = Some d /\
     in_columns "valor" (columns d) = false /\
     (d = empty_frame \/ in_columns "deficit" (columns d) = true) /\
     (forall hint nome, fst (obter_coluna_valor hint nome d) <> Some "valor")) /\
  (exists d,
     returned_frame (processar_dados_iof dados) st = Some d /\
     in_columns "valor" (columns d) = false /\
     (d = empty_frame \/ in_columns "iof" (columns d) = true) /\
     (forall hint nome, fst (obter_coluna_valor hint nome d) <> Some "valor")).
Proof.
  split; apply processar_dados_como_columns; discriminate.
Qed.

(** ** The precedence of the resolver *)

Lemma first_numeric_same (d : DataFrame) :
  List.filter
    (fun col => negb (in_columns col ["data"; "ano"]) && is_numeric_dtype d col)
    (columns d) =
  List.filter
    (fun c => is_numeric_dtype d c && negb (in_columns c ["data"; "ano"]))
    (columns d).
Proof. apply filter_ext. intros c. apply andb_comm. Qed.

(** C6. The resolver follows the precedence of the specification: the
    configured hint when it is a column, then [valor], then [deficit], then
    [iof], then the first numeric column that is neither [data] nor [ano];
    the first match wins. With no match it returns no column and shows one
    error message, and returns normally. In particular a table with a
    column [valor] and no hint resolves to [valor], whatever its other
    columns. The hint is a text that is not empty, when there is one. *)
Theorem obter_coluna_valor_precedence (hint : option string) (nome : string)
    (d : DataFrame) :
  hint <> Some "" ->
  obter_coluna_valor hint nome d =
  match resolveValueColumn d hint with
  | inr c => (Some c, [])
  | inl column_not_found => (None, [ErroColunaValor nome])
  end /\
  (hint = None -> In "valor" (columns d) ->
   obter_coluna_valor hint nome d = (Some "valor", [])).
Proof.
  intros Hhint. split.
  - unfold obter_coluna_valor, resolveValueColumn.
    cbn [first_match]. unfold rule_hint, rule_named, rule_first_numeric.
    rewrite first_numeric_same.
    destruct hint as [h |].
    + assert (truthy h = true) as ->.
      { destruct h; [congruence | done]. }
      cbn [andb].
      destruct (in_columns h (columns d)); [done |].
      destruct (in_columns "valor" (columns d)); [done |].
      destruct (in_columns "deficit" (columns d)); [done |].
      destruct (in_columns "iof" (columns d)); [done |].
      by destruct (List.filter _ (columns d)).
    + destruct (in_columns "valor" (columns d)); [done |].
      destruct (in_columns "deficit" (columns d)); [done |].
      destruct (in_columns "iof" (columns d)); [done |].
      by destruct (List.filter _ (columns d)).
  - intros -> Hin. apply in_columns_In in Hin.
    unfold obter_coluna_valor. by rewrite Hin.
Qed.

(** The precedence at the table with the columns [valor], [iof] and [data]
    and no hint. *)
Lemma obter_coluna_valor_precedence_witness :
  obter_coluna_valor None "IOF" (mkDF ["valor"; "iof"; "data"] []) =
  (Some "valor", []).
Proof.
  destruct (obter_coluna_valor_precedence None "IOF"
              (mkDF ["valor"; "iof"; "data"] [])) as [_ Hex].
  - discriminate.
  - apply Hex; [reflexivity | by left].
Defined.

(** ** The engine *)

Section PrevisorFacts.
Context {model : Type} `{ProphetAPI model}.

(** An engine with no model bound answers [ModelNotTrained]. *)
Lemma prever_sem_modelo (self : PrevisorSeriesTemporal model) (periodos : Z) :
  modelo self = None -> prever self periodos = inl ModelNotTrained.
Proof. intros Hm. unfold prever. by rewrite Hm. Qed.

(** A call of [treinar] that stops at one of its two guards leaves the
    engine as it was. *)
Lemma treinar_guard_keeps_engine (self : PrevisorSeriesTemporal model)
    (df : DataFrame) (e : ForecastError) :
  snd (treinar self df) = inl e ->
  e = InsufficientData \/ e = UnsupportedModelKind ->
  fst (treinar self df) = self.
Proof.
  unfold treinar.
  destruct (df_empty df || (df_len df <? 2)%nat); [done |].
  destruct (String.eqb (tipo_modelo self) "prophet"); [| done].
  destruct (Prophet_init (prophet_params self)) as [m |]; [| done].
  destruct (Prophet_fit m df) as [m' []]; cbn [snd].
  - discriminate.
  - intros [= <-] [? | ?]; discriminate.
Qed.

End PrevisorFacts.

(** C7. With fewer than two rows, [treinar] returns [False] for
    insufficient data; it raises nothing and leaves the engine as it was. *)
Theorem treinar_insufficient_data {model : Type} `{ProphetAPI model}
    (self : PrevisorSeriesTemporal model) (df : DataFrame) :
  (df_len df < 2)%nat ->
  treinar self df = (self, inl InsufficientData).
Proof.
  intros Hlen. unfold treinar.
  assert ((df_len df <? 2)%nat = true) as -> by by apply Nat.ltb_lt.
  by rewrite orb_true_r.
Qed.

(** [treinar] on a series of one row. *)
Lemma treinar_insufficient_data_witness :
  treinar previsor_exemplo serie_de_uma_linha =
  (previsor_exemplo, inl InsufficientData).
Proof.
  apply treinar_insufficient_data. vm_compute. lia.
Defined.

(** C1: the code at an input where [fit] raises. [treinar] binds the new
    model to the engine before it calls [fit]; when [fit] raises, [treinar]
    returns [False] and the engine keeps that model, so a later [prever]
    passes the guard that answers [ModelNotTrained]. *)
Theorem treinar_failed_fit_binds_model {model : Type} `{ProphetAPI model}
    (self : PrevisorSeriesTemporal model) (df : DataFrame) (m m' : model)
    (periodos : Z) :
  df_empty df = false ->
  (2 <= df_len df)%nat ->
  tipo_modelo self = "prophet" ->
  Prophet_init (prophet_params self) = Some m ->
  Prophet_fit m df = (m', false) ->
  snd (treinar self df) = inl TrainingFailure /\
  modelo (fst (treinar self df)) = Some m' /\
  prever (fst (treinar self df)) periodos <> inl ModelNotTrained.
Proof.
  intros He Hlen Htipo Hinit Hfit. unfold treinar.
  assert ((df_len df <? 2)%nat = false) as -> by (apply Nat.ltb_ge; lia).
  rewrite He, Htipo. cbn [orb].
  change (String.eqb "prophet" "prophet") with true. cbn iota.
  rewrite Hinit, Hfit. cbn [fst snd].
  split; [done |]. split; [done |].
  unfold prever. cbn [modelo tipo_modelo set_modelo]. rewrite Htipo.
  change (String.eqb "prophet" "prophet") with true. cbn iota.
  destruct (Prophet_make_future_dataframe m' periodos) as [fut |]; [| done].
  by destruct (Prophet_predict m' fut).
Qed.

(** The failing input: a prepared series of two rows whose second value is
    a text, on a new engine. [fit] raises; the engine holds a model that was
    not fitted, and [prever] fails inside the library, not at its guard. *)
Lemma treinar_failed_fit_binds_model_witness :
  modelo previsor_exemplo = None /\
  snd (treinar previsor_exemplo serie_preparada_com_texto) = inl TrainingFailure /\
  modelo (fst (treinar previsor_exemplo serie_preparada_com_texto)) <> None /\
  prever (fst (treinar previsor_exemplo serie_preparada_com_texto)) 12 =
  inl PredictionFailure.
Proof.
  destruct (treinar_failed_fit_binds_model previsor_exemplo
              serie_preparada_com_texto
              (SimpleProphet.mkModel (prophet_params previsor_exemplo) None)
              (SimpleProphet.mkModel (prophet_params previsor_exemplo) None)
              12) as (Hres & Hmod & Hprev);
    [reflexivity | vm_compute; lia | reflexivity | reflexivity | reflexivity |].
  split; [reflexivity |]. split; [exact Hres |]. split.
  - rewrite Hmod. discriminate.
  - vm_compute. reflexivity.
Defined.

(** ** The table of the forecast *)

(** C4: the code at an input where the comparison of formatted dates goes
    wrong. On 4 November 2026 the table keeps the row of 15 January 2020,
    which is in the past, and drops the row of 1 December 2026, which is in
    the future: the dates are compared as texts of the form dd/mm/yyyy. *)
Theorem tabela_previsao_compares_text :
  tabela_previsao (timestamp_of_date 2026 11 4) previsao_exemplo =
  [mkLinha "15/01/2020" 10 8 12; mkLinha "05/01/2027" 12 10 14] /\
  timestamp_of_date 2020 1 15 < timestamp_of_date 2026 11 4 /\
  timestamp_of_date 2026 11 4 <= timestamp_of_date 2026 12 1.
Proof. repeat split; vm_compute; try reflexivity; discriminate. Qed.

(** * Further properties of the code *)

(** ** The sort puts its input in order *)

Section SortOrder.
Context {A : Type} (lt : A -> A -> bool).
Hypothesis lt_asym : forall a b, lt a b = true -> lt b a = false.

Lemma insert_sorted_not_descending (x : A) (l : list A) :
  not_descending lt l -> not_descending lt (insert_sorted lt x l).
Proof.
  induction l as [| h t IH]; [done |]. intros Hl.
  cbn [insert_sorted]. destruct (lt h x) eqn:Hhx.
  - assert (not_descending lt t) as Ht.
    { destruct t; [done |]. apply Hl. }
    specialize (IH Ht).
    destruct t as [| h2 t2].
    + cbn. split; [by apply lt_asym | done].
    + cbn [insert_sorted] in *. destruct Hl as [Hh2 _].
      destruct (lt h2 x); split; try done. by apply lt_asym.
  - split; [exact Hhx | exact Hl].
Qed.

Lemma sort_by_not_descending (l : list A) : not_descending lt (sort_by lt l).
Proof.
  induction l as [| x t IH]; [done |].
  cbn [sort_by]. by apply insert_sorted_not_descending.
Qed.

End SortOrder.

Lemma cell_lt_asym (a b : cell) : cell_lt a b = true -> cell_lt b a = false.
Proof.
  destruct a, b; cbn; try done. intros Hlt.
  apply Z.ltb_lt in Hlt. apply Z.ltb_ge. lia.
Qed.

Lemma by_ds_asym (r1 r2 : Row) : by_ds r1 r2 = true -> by_ds r2 r1 = false.
Proof. apply cell_lt_asym. Qed.

Lemma not_descending_ascending (rs : list Row) :
  not_descending by_ds rs -> ascending rs = true.
Proof.
  induction rs as [| r1 rs IH]; [done |].
  destruct rs as [| r2 rs']; [done |].
  intros [H12 Hrest]. cbn [ascending].
  apply andb_true_iff. split; [| by apply IH].
  apply negb_true_iff. exact H12.
Qed.

(** ** [preparar_dados]: inputs it cannot prepare *)

(** X1. [preparar_dados] returns the empty frame [pd.DataFrame()] when the
    table is empty, when one of the two named columns is not a column of the
    table, and when the same name is given for the date and for the value
    (the renaming [{c: "ds", c: "y"}] then leaves no column [ds]). *)
Theorem preparar_dados_degenerate_input `{PandasConv}
    (st : store) (df : ref) (d : DataFrame) (cd cv : string) :
  st !! df = Some d ->
  df_empty d = true \/
  col_index cd (columns d) = None \/
  col_index cv (columns d) = None \/
  cd = cv ->
  returned_frame (preparar_dados df cd cv) st = Some empty_frame.
Proof.
  intros Hd Hcase. rewrite (preparar_dados_returns st df d cd cv Hd).
  f_equal. unfold prepared, prepared_value, select_columns.
  destruct (df_empty d); [done |].
  destruct Hcase as [He | [Hi | [Hj | ->]]]; [done | | |].
  - simpl col_indices. by rewrite Hi.
  - simpl col_indices. rewrite Hj. by destruct (col_index cd (columns d)).
  - simpl col_indices. destruct (col_index cv (columns d)); [| done].
    unfold rename_columns. cbn [columns rows]. by rewrite rename_same.
Qed.

(** The three cases on small tables. *)
Lemma preparar_dados_degenerate_input_witness :
  returned_frame (preparar_dados 0%nat "data" "valor")
    [mkDF ["data"; "valor"] []] = Some empty_frame /\
  returned_frame (preparar_dados 0%nat "data" "total") [serie_com_texto]
  = Some empty_frame /\
  returned_frame (preparar_dados 0%nat "valor" "valor") [serie_com_texto]
  = Some empty_frame.
Proof.
  split; [| split].
  - apply (preparar_dados_degenerate_input _ _ (mkDF ["data"; "valor"] []));
      [reflexivity | left; reflexivity].
  - apply (preparar_dados_degenerate_input _ _ serie_com_texto);
      [reflexivity | right; right; left; reflexivity].
  - apply (preparar_dados_degenerate_input _ _ serie_com_texto);
      [reflexivity | right; right; right; reflexivity].
Defined.

(** ** [preparar_dados] applied to its own result *)

Section PreparedAgain.
Context `{PandasConv}.

(** A prepared row has a timestamp and a value that is not missing. *)
Lemma prepared_rows_shape (i j : nat) (rs : list Row) :
  Forall (fun r => exists t v, cells r = [CDate t; v] /\ v <> CNull)
         (sort_by by_ds (List.filter complete_row (map (prepared_row i j) rs))).
Proof.
  apply Forall_forall. intros r Hr. rewrite sort_by_perm in Hr.
  apply (proj1 (list_elem_of_In _ _)) in Hr.
  apply filter_In in Hr. destruct Hr as [Hr Hc].
  apply in_map_iff in Hr. destruct Hr as (r0 & <- & _).
  unfold complete_row, prepared_row, notna in Hc. cbn in Hc.
  destruct (to_datetime_or_null_cases (get_cell i r0)) as [Hn | [t Ht]].
  { rewrite Hn in Hc. discriminate. }
  exists t, (get_cell j r0). unfold prepared_row. cbn [cells]. rewrite Ht.
  split; [done |].
  intros Hnull. rewrite Hnull, Ht in Hc. discriminate.
Qed.

Lemma complete_rows_prepared (rs : list Row) :
  Forall (fun r => exists t v, cells r = [CDate t; v] /\ v <> CNull) rs ->
  forallb (fun r => date_converts (get_cell 0 r)) rs = true /\
  List.filter complete_row (map (prepared_row 0 1) rs) = rs.
Proof.
  induction 1 as [| r rs (t & v & Hc & Hv) _ [IH1 IH2]]; [done |].
  destruct r as [l cs]. cbn [cells] in Hc. subst cs. split.
  - cbn [forallb]. rewrite IH1. reflexivity.
  - cbn [map]. unfold prepared_row at 1.
    cbn [List.filter complete_row forallb get_cell cells nth label
         to_datetime_or_null to_datetime_cell notna isna negb andb].
    destruct v; [done | | |]; cbn; by rewrite IH2.
Qed.

Lemma prepared_of_prepared (rs : list Row) :
  Forall (fun r => exists t v, cells r = [CDate t; v] /\ v <> CNull) rs ->
  not_descending by_ds rs ->
  rs <> [] ->
  prepared (mkDF ["ds"; "y"] rs) "ds" "y" = mkDF ["ds"; "y"] rs.
Proof.
  intros Hshape Hord Hne.
  rewrite (prepared_frame _ "ds" "y" 0%nat 1%nat); try done.
  - cbn [rows]. destruct (complete_rows_prepared rs Hshape) as [-> ->].
    by rewrite (sort_by_fixed by_ds rs Hord).
  - by destruct rs.
Qed.

End PreparedAgain.

(** ** [treinar] and [prever]: more on the engine *)

(** X4. When [treinar] returns [True], the frame had at least two rows, the
    engine is of the kind [prophet], and the model now bound is the one a
    new library object became when it was fitted on that frame. *)
Theorem treinar_success_inversion {model : Type} `{ProphetAPI model}
    (self : PrevisorSeriesTemporal model) (df : DataFrame) :
  snd (treinar self df) = inr tt ->
  df_empty df = false /\
  (2 <= df_len df)%nat /\
  tipo_modelo self = "prophet" /\
  exists m m',
    Prophet_init (prophet_params self) = Some m /\
    Prophet_fit m df = (m', true) /\
    modelo (fst (treinar self df)) = Some m'.
Proof.
  unfold treinar.
  destruct (df_empty df) eqn:He; [done |].
  destruct (df_len df <? 2)%nat eqn:Hlen; [done |]. cbn [orb].
  destruct (String.eqb_spec (tipo_modelo self) "prophet") as [Htipo | _]; [| done].
  destruct (Prophet_init (prophet_params self)) as [m |] eqn:Hinit; [| done].
  destruct (Prophet_fit m df) as [m' []] eqn:Hfit; [| done].
  intros _. apply Nat.ltb_ge in Hlen. eauto 10.
Qed.

Lemma treinar_success_inversion_witness :
  df_empty serie_canonica = false /\
  (2 <= df_len serie_canonica)%nat /\
  tipo_modelo previsor_exemplo = "prophet" /\
  exists m m',
    Prophet_init (prophet_params previsor_exemplo) = Some m /\
    Prophet_fit m serie_canonica = (m', true) /\
    modelo (fst (treinar previsor_exemplo serie_canonica)) = Some m'.
Proof.
  apply treinar_success_inversion. vm_compute. reflexivity.
Defined.

(** X5. A training that succeeds supersedes the model the engine held: the
    engine it leaves is the same whatever model was bound before. *)
Theorem treinar_supersedes_model {model : Type} `{ProphetAPI model}
    (self : PrevisorSeriesTemporal model) (m0 : model) (df : DataFrame) :
  snd (treinar self df) = inr tt ->
  treinar (set_modelo self m0) df = treinar self df.
Proof.
  unfold treinar. cbn [tipo_modelo set_modelo].
  destruct (df_empty df || (df_len df <? 2)%nat); [done |].
  destruct (String.eqb (tipo_modelo self) "prophet"); [| done].
  change (prophet_params (set_modelo self m0)) with (prophet_params self).
  destruct (Prophet_init (prophet_params self)) as [m |]; [| done].
  by destruct (Prophet_fit m df) as [m' []].
Qed.

Lemma treinar_supersedes_model_witness :
  treinar (set_modelo previsor_exemplo
             (SimpleProphet.mkModel (prophet_params previsor_exemplo)
                (Some [(0, 1%Q); (1, 2%Q)])))
          serie_canonica
  = treinar previsor_exemplo serie_canonica.
Proof.
  apply treinar_supersedes_model. vm_compute. reflexivity.
Defined.

(** X6. [treinar] never changes the configuration of the engine: the kind
    of model and the parameters handed to the library stay as the
    constructor set them, whether the call succeeds or fails. *)
Theorem treinar_keeps_configuration {model : Type} `{ProphetAPI model}
    (self : PrevisorSeriesTemporal model) (df : DataFrame) :
  tipo_modelo (fst (treinar self df)) = tipo_modelo self /\
  prophet_params (fst (treinar self df)) = prophet_params self.
Proof.
  unfold treinar.
  destruct (df_empty df || (df_len df <? 2)%nat); [done |].
  destruct (String.eqb (tipo_modelo self) "prophet"); [| done].
  destruct (Prophet_init (prophet_params self)) as [m |]; [| done].
  by destruct (Prophet_fit m df) as [m' []].
Qed.

(** X7. An engine of a kind other than [prophet] can never be trained:
    every call of [treinar] fails and leaves it as it was, so after any
    number of calls [prever] still fails. *)
Theorem treinar_unsupported_kind {model : Type} `{ProphetAPI model}
    (self : PrevisorSeriesTemporal model) (dfs : list DataFrame) (periodos : Z) :
  tipo_modelo self <> "prophet" ->
  (forall df,
     treinar self df = (self, inl InsufficientData) \/
     treinar self df = (self, inl UnsupportedModelKind)) /\
  treinar_em_sequencia self dfs = self /\
  (prever (treinar_em_sequencia self dfs) periodos = inl ModelNotTrained \/
   prever (treinar_em_sequencia self dfs) periodos = inl UnsupportedModelKind).
Proof.
  intros Htipo. apply String.eqb_neq in Htipo.
  assert (forall df,
            treinar self df = (self, inl InsufficientData) \/
            treinar self df = (self, inl UnsupportedModelKind)) as Hone.
  { intros df. unfold treinar. rewrite Htipo.
    destruct (df_empty df || (df_len df <? 2)%nat); auto. }
  assert (treinar_em_sequencia self dfs = self) as Hseq.
  { unfold treinar_em_sequencia.
    induction dfs as [| df dfs IH]; [done |]. cbn [fold_left].
    destruct (Hone df) as [-> | ->]; exact IH. }
  split; [exact Hone |]. split; [exact Hseq |].
  rewrite Hseq. unfold prever. rewrite Htipo.
  destruct (modelo self); auto.
Qed.

Lemma treinar_unsupported_kind_witness :
  let self : PrevisorSeriesTemporal SimpleProphet.model :=
    novo_previsor "arima" true false false "additive" (5 # 100)%Q in
  treinar_em_sequencia self [serie_canonica; serie_de_uma_linha] = self /\
  prever (treinar_em_sequencia self [serie_canonica; serie_de_uma_linha]) 12
  = inl ModelNotTrained.
Proof.
  intros self.
  destruct (treinar_unsupported_kind self [serie_canonica; serie_de_uma_linha] 12)
    as (_ & Hseq & _); [discriminate |].
  split; [exact Hseq |]. rewrite Hseq. reflexivity.
Defined.

(** ** [processar_dados_deficit] and [processar_dados_iof]: the value *)

Section ProcessarReturns.
Context `{PandasConv}.

Lemma processar_dados_returns (st : store) (rotulo : string) (dados : list record) :
  exists extra : store,
    processar_dados_como rotulo dados st =
    (st ++ extra ++ [processado rotulo dados], inr (length st + length extra)%nat).
Proof.
  unfold processar_dados_como, try_except, processado, processado_value.
  rewrite bind_run. unfold new_frame at 1.
  set (d0 := from_records dados).
  rewrite bind_run, df_getitem_snoc.
  destruct (get_column "data" d0) as [e | data].
  { exists [d0]. store_eq. }
  rewrite bind_run. unfold lift at 1.
  destruct (to_datetime data) as [e | data'].
  { exists [d0]. store_eq. }
  rewrite bind_run, df_setitem_snoc.
  set (d1 := set_column "data" data' d0).
  rewrite bind_run, df_getitem_snoc.
  destruct (get_column "valor" d1) as [e | valor].
  { exists [d1]. store_eq. }
  rewrite bind_run, df_setitem_snoc.
  set (d2 := set_column "valor" (to_numeric_coerce valor) d1).
  rewrite bind_run, df_dropna_snoc.
  destruct (dropna ["valor"] d2) as [e | d3].
  { exists [d2]. store_eq. }
  rewrite bind_run, df_sort_values_snoc.
  destruct (sort_values "data" d3) as [e | d4].
  { exists [d2; d3]. store_eq. }
  rewrite bind_run, df_rename_inplace_snoc.
  exists [d2; d3]. store_eq.
Qed.

Lemma processar_dados_returned (st : store) (rotulo : string) (dados : list record) :
  returned_frame (processar_dados_como rotulo dados) st
  = Some (processado rotulo dados).
Proof.
  unfold returned_frame.
  destruct (processar_dados_returns st rotulo dados) as [extra ->].
  apply lookup_result.
Qed.

End ProcessarReturns.

(** X8. [processar_dados_deficit] and [processar_dados_iof] never change a
    frame that existed before the call: the store they leave begins with the
    store they found. *)
Theorem processar_dados_keeps_store `{PandasConv}
    (st : store) (dados : list record) :
  take (length st) (final_store (processar_dados_deficit dados) st) = st /\
  take (length st) (final_store (processar_dados_iof dados) st) = st.
Proof.
  unfold final_store, processar_dados_deficit, processar_dados_iof.
  split.
  - destruct (processar_dados_returns st "deficit" dados) as [extra ->].
    apply take_app_length.
  - destruct (processar_dados_returns st "iof" dados) as [extra ->].
    apply take_app_length.
Qed.

(** ** Frames built from records *)

Lemma in_columns_app (k : string) (l l' : list string) :
  in_columns k (l ++ l') = in_columns k l || in_columns k l'.
Proof.
  induction l as [| x l IH]; [done |]. cbn [app in_columns].
  by destruct (String.eqb k x).
Qed.

Lemma in_columns_add_keys (k : string) (ks acc : list string) :
  in_columns k (add_keys ks acc) = in_columns k acc || in_columns k ks.
Proof.
  revert acc. induction ks as [| x ks IH]; intros acc.
  { cbn. by rewrite orb_false_r. }
  cbn [add_keys in_columns]. rewrite IH.
  destruct (in_columns x acc) eqn:Hx.
  - destruct (String.eqb_spec k x) as [-> | _]; [| done].
    by rewrite Hx.
  - rewrite in_columns_app. cbn [in_columns].
    destruct (String.eqb k x); by rewrite ?orb_false_r, ?orb_true_r, <- ?orb_assoc.
Qed.

Lemma in_columns_fold_records (k : string) (dados : list record) (acc : list string) :
  in_columns k (fold_left (fun acc r => add_keys (map fst r) acc) dados acc) =
  in_columns k acc || existsb (fun r => in_columns k (map fst r)) dados.
Proof.
  revert acc. induction dados as [| r dados IH]; intros acc.
  { cbn. by rewrite orb_false_r. }
  cbn [fold_left existsb]. rewrite IH, in_columns_add_keys.
  by rewrite orb_assoc.
Qed.

(** A label is a column of the frame when some record has that field. *)
Lemma in_columns_from_records (k : string) (dados : list record) :
  in_columns k (columns (from_records dados)) =
  existsb (fun r => in_columns k (map fst r)) dados.
Proof. unfold from_records. cbn [columns]. apply in_columns_fold_records. Qed.

Lemma dict_get_in_columns (k : string) (r : record) :
  dict_get k r = None <-> in_columns k (map fst r) = false.
Proof.
  induction r as [| [k' v] r IH]; [done |]. cbn.
  by destruct (String.eqb k k').
Qed.

Lemma col_index_none (c : string) (cols : list string) :
  col_index c cols = None <-> in_columns c cols = false.
Proof.
  induction cols as [| x cols IH]; [done |]. cbn.
  destruct (String.eqb c x); [done |].
  destruct (col_index c cols); [| tauto].
  split; [done |]. intros Hin. apply IH in Hin. done.
Qed.

Lemma col_index_lookup (c : string) (cols : list string) (i : nat) :
  col_index c cols = Some i -> cols !! i = Some c.
Proof.
  revert i. induction cols as [| x cols IH]; [done |]. intros i. cbn.
  destruct (String.eqb_spec c x) as [-> | _].
  - by intros [= <-].
  - destruct (col_index c cols) as [j |]; [| done].
    intros [= <-]. cbn. by apply IH.
Qed.

(** No field in any record: no column. *)
Lemma col_index_from_records_none (k : string) (dados : list record) :
  Forall (fun r => dict_get k r = None) dados ->
  col_index k (columns (from_records dados)) = None.
Proof.
  intros Hall. apply col_index_none. rewrite in_columns_from_records.
  apply not_true_is_false. rewrite existsb_exists.
  intros (r & Hr & Hin). rewrite Forall_forall in Hall.
  apply (proj2 (list_elem_of_In _ _)) in Hr.
  apply Hall, dict_get_in_columns in Hr. congruence.
Qed.

Lemma get_cell_map (g : string -> cell) (cols : list string) (i : nat)
    (c : string) (l : Z) :
  cols !! i = Some c -> get_cell i (mkRow l (map g cols)) = g c.
Proof.
  unfold get_cell. cbn [cells]. revert i.
  induction cols as [| x cols IH]; [done |]. intros [| i]; cbn.
  - by intros [= ->].
  - apply IH.
Qed.

Lemma imap_rows_column (cols : list string) (dados : list record)
    (i : nat) (c : string) (lab : nat -> Z) :
  cols !! i = Some c ->
  map (get_cell i)
    (imap (fun n r =>
             mkRow (lab n)
               (map (fun c => match dict_get c r with Some v => v | None => CNull end)
                    cols))
          dados) =
  map (fun r => match dict_get c r with Some v => v | None => CNull end) dados.
Proof.
  intros Hc. revert lab.
  induction dados as [| r dados IH]; intros lab; [done |].
  cbn [imap map]. rewrite (get_cell_map _ cols i c _ Hc). f_equal.
  apply (IH (fun n => lab (S n))).
Qed.

Lemma imap_rows_length (cols : list string) (dados : list record) (lab : nat -> Z) :
  Forall (fun r => length (cells r) = length cols)
    (imap (fun n r =>
             mkRow (lab n)
               (map (fun c => match dict_get c r with Some v => v | None => CNull end)
                    cols))
          dados).
Proof.
  revert lab. induction dados as [| r dados IH]; intros lab; [constructor |].
  cbn [imap]. constructor.
  - cbn [cells]. apply length_map.
  - apply (IH (fun n => lab (S n))).
Qed.

(** The cells of a column of the frame are the fields of the records. *)
Lemma from_records_column (dados : list record) (i : nat) (c : string) :
  columns (from_records dados) !! i = Some c ->
  map (get_cell i) (rows (from_records dados)) =
  map (fun r => match dict_get c r with Some v => v | None => CNull end) dados.
Proof. unfold from_records. cbn [columns rows]. apply imap_rows_column. Qed.

Lemma from_records_row_length (dados : list record) :
  Forall (fun r => length (cells r) = length (columns (from_records dados)))
         (rows (from_records dados)).
Proof. unfold from_records. cbn [columns rows]. apply imap_rows_length. Qed.

(** ** Assigning a column *)

Lemma set_cells_map (i : nat) (g : Row -> cell) (rs : list Row) :
  set_cells i rs (map g rs) =
  map (fun r => mkRow (label r) (<[i := g r]> (cells r))) rs.
Proof.
  induction rs as [| r rs IH]; [done |].
  cbn [map set_cells]. by rewrite IH.
Qed.

Lemma get_cell_insert_ne (i k : nat) (v : cell) (l : Z) (cs : list cell) :
  i <> k -> get_cell k (mkRow l (<[i := v]> cs)) = get_cell k (mkRow l cs).
Proof.
  intros Hne. unfold get_cell. cbn [cells].
  by rewrite !nth_lookup, list_lookup_insert_ne.
Qed.

Lemma get_cell_insert_eq (i : nat) (v : cell) (l : Z) (cs : list cell) :
  (i < length cs)%nat -> get_cell i (mkRow l (<[i := v]> cs)) = v.
Proof.
  intros Hlt. unfold get_cell. cbn [cells].
  by rewrite nth_lookup, list_lookup_insert_eq.
Qed.

Lemma col_index_distinct (c1 c2 : string) (cols : list string) (i k : nat) :
  c1 <> c2 -> col_index c1 cols = Some i -> col_index c2 cols = Some k -> i <> k.
Proof.
  intros Hne H1 H2 ->.
  apply col_index_lookup in H1, H2. congruence.
Qed.

Section ProcessedFrame.
Context `{PandasConv}.

(** The value, when the two columns exist: the empty frame if a date does
    not convert, else the rows whose value is a number, by date, with the
    value column renamed. *)
Lemma processado_frame (rotulo : string) (dados : list record) (i k : nat) :
  col_index "data" (columns (from_records dados)) = Some i ->
  col_index "valor" (columns (from_records dados)) = Some k ->
  processado rotulo dados =
  if forallb (fun r => date_converts (get_cell i r)) (rows (from_records dados))
  then mkDF (map (rename_label [("valor", rotulo)]) (columns (from_records dados)))
         (sort_by (by_column i)
            (List.filter (fun r => notna (get_cell k r))
               (map (processed_row i k) (rows (from_records dados)))))
  else empty_frame.
Proof.
  intros Hi Hk. unfold processado, processado_value. cbv zeta.
  destruct (from_records dados) as [cols0 rows0]. cbn [columns rows] in *.
  unfold get_column at 1. cbn [columns rows]. rewrite Hi.
  rewrite to_datetime_spec, forallb_map_compose.
  destruct (forallb _ rows0); [| done].
  unfold set_column, get_column, dropna, sort_values, rename_columns.
  cbn [columns rows]. rewrite Hi. cbn [columns rows col_indices]. rewrite Hk.
  cbn [columns rows col_indices]. rewrite Hk. cbn [columns rows]. rewrite Hi.
  cbn [columns rows]. f_equal.
  rewrite !map_map.
  rewrite (set_cells_map i (fun x => to_datetime_or_null (get_cell i x)) rows0).
  unfold to_numeric_coerce. rewrite (map_map (get_cell k) to_numeric_cell).
  rewrite (set_cells_map k (fun r => to_numeric_cell (get_cell k r))).
  rewrite map_map.
  assert (i <> k) as Hik by (eapply (col_index_distinct "data" "valor"); done).
  change (fun r1 r2 : Row => cell_lt (get_cell i r1) (get_cell i r2))
    with (by_column i).
  f_equal.
  rewrite (filter_ext _ (fun r : Row => notna (get_cell k r)));
    [| intros r; cbn [forallb]; apply andb_true_r].
  f_equal. apply map_ext. intros [l cs].
  unfold processed_row. cbn [label cells].
  by rewrite (get_cell_insert_ne i k _ l cs Hik).
Qed.

End ProcessedFrame.

(** ** [processar_dados_deficit] and [processar_dados_iof]: results *)

Lemma to_numeric_cell_cases `{PandasConv} (c : cell) :
  to_numeric_cell c = CNull \/ exists q, to_numeric_cell c = CNum q.
Proof.
  destruct c as [| q | s | t]; cbn; eauto.
  destruct (parse_num s); eauto.
Qed.

Lemma by_column_asym (i : nat) (r1 r2 : Row) :
  by_column i r1 r2 = true -> by_column i r2 r1 = false.
Proof. apply cell_lt_asym. Qed.

Section ProcessedFacts.
Context `{PandasConv}.

Lemma processed_row_cells (i k : nat) (r : Row) :
  i <> k ->
  (i < length (cells r))%nat ->
  (k < length (cells r))%nat ->
  get_cell i (processed_row i k r) = to_datetime_or_null (get_cell i r) /\
  get_cell k (processed_row i k r) = to_numeric_cell (get_cell k r).
Proof.
  intros Hik Hi Hk. destruct r as [l cs]. unfold processed_row.
  cbn [label cells] in *. split.
  - rewrite get_cell_insert_ne by done. by apply get_cell_insert_eq.
  - apply get_cell_insert_eq. by rewrite length_insert.
Qed.

(** With no field [data], no field [valor], or a date that does not
    convert, the value is the empty frame. *)
Lemma processado_unusable (rotulo : string) (dados : list record) :
  Forall (fun r => dict_get "data" r = None) dados \/
  Forall (fun r => dict_get "valor" r = None) dados \/
  Exists (fun r => exists c, dict_get "data" r = Some c /\ date_converts c = false)
         dados ->
  processado rotulo dados = empty_frame.
Proof.
  intros [Hdata | [Hvalor | Hbad]].
  - apply col_index_from_records_none in Hdata.
    unfold processado, processado_value, get_column. cbv zeta. by rewrite Hdata.
  - apply col_index_from_records_none in Hvalor.
    unfold processado, processado_value. cbv zeta.
    destruct (get_column "data" (from_records dados)) as [e | data] eqn:Hg; [done |].
    destruct (to_datetime data) as [e | data']; [done |].
    unfold get_column in Hg.
    destruct (col_index "data" (columns (from_records dados))) as [i |] eqn:Hi;
      [| done].
    unfold get_column. rewrite (set_column_existing _ _ _ _ Hi).
    by rewrite Hvalor.
  - apply Exists_exists in Hbad. destruct Hbad as (r & Hr & c & Hc & Hconv).
    destruct (col_index "data" (columns (from_records dados))) as [i |] eqn:Hi.
    + unfold processado, processado_value, get_column. cbv zeta. rewrite Hi.
      rewrite (from_records_column dados i "data" (col_index_lookup _ _ _ Hi)).
      rewrite to_datetime_spec, forallb_map_compose.
      assert (forallb
                (fun x => date_converts
                            match dict_get "data" x with Some v => v | None => CNull end)
                dados = false) as ->; [| done].
      apply not_true_is_false. intros Hall. rewrite forallb_forall in Hall.
      apply (proj1 (list_elem_of_In _ _)) in Hr.
      specialize (Hall r Hr). rewrite Hc in Hall. congruence.
    + apply col_index_none in Hi. rewrite in_columns_from_records in Hi.
      assert (existsb (fun r => in_columns "data" (map fst r)) dados = true) as Hex.
      { apply existsb_exists. exists r. split.
        - by apply (proj1 (list_elem_of_In _ _)).
        - destruct (in_columns "data" (map fst r)) eqn:Hin; [done |].
          apply dict_get_in_columns in Hin. congruence. }
      congruence.
Qed.

(** The rows of a result that is not the empty frame. *)
Lemma processado_rows (rotulo : string) (dados : list record) (i k : nat) :
  col_index "data" (columns (from_records dados)) = Some i ->
  col_index "valor" (columns (from_records dados)) = Some k ->
  processado rotulo dados = empty_frame \/
  columns (processado rotulo dados) =
    map (rename_label [("valor", rotulo)]) (columns (from_records dados)) /\
  Forall (fun r => (exists q, get_cell k r = CNum q) /\
                   (get_cell i r = CNull \/ exists t, get_cell i r = CDate t))
         (rows (processado rotulo dados)) /\
  not_descending (by_column i) (rows (processado rotulo dados)) /\
  (length (rows (processado rotulo dados)) <= length dados)%nat.
Proof.
  intros Hi Hk. rewrite (processado_frame rotulo dados i k Hi Hk).
  destruct (forallb _ (rows (from_records dados))); [right | by left].
  cbn [columns rows]. split; [done |].
  assert (i <> k) as Hik by (eapply (col_index_distinct "data" "valor"); done).
  split; [| split].
  - apply Forall_forall. intros r Hr. rewrite sort_by_perm in Hr.
    apply (proj1 (list_elem_of_In _ _)) in Hr.
    apply filter_In in Hr. destruct Hr as [Hr Hnum].
    apply in_map_iff in Hr. destruct Hr as (r0 & <- & Hr0).
    pose proof (from_records_row_length dados) as Hlen.
    rewrite Forall_forall in Hlen.
    apply (proj2 (list_elem_of_In _ _)) in Hr0. specialize (Hlen r0 Hr0).
    apply col_index_lookup, lookup_lt_Some in Hi, Hk.
    destruct (processed_row_cells i k r0 Hik) as [Hci Hck]; [lia | lia |].
    rewrite Hci, Hck in *. split.
    + destruct (to_numeric_cell_cases (get_cell k r0)) as [Hn | Hn]; [| done].
      by rewrite Hn in Hnum.
    + apply to_datetime_or_null_cases.
  - apply sort_by_not_descending, by_column_asym.
  - rewrite (Permutation_length (sort_by_perm _ _)).
    etransitivity; [apply filter_length_le |]. rewrite length_map.
    unfold from_records. cbn [rows]. by rewrite length_imap.
Qed.

End ProcessedFacts.

(** X9. [processar_dados_deficit] and [processar_dados_iof] return the
    empty frame [pd.DataFrame()] when no record has a field [data] (an empty
    list of records among them), when no record has a field [valor], and
    when the date of some record does not convert: the [except] branch
    catches the failure. *)
Theorem processar_dados_unusable_input `{PandasConv}
    (st : store) (dados : list record) :
  Forall (fun r => dict_get "data" r = None) dados \/
  Forall (fun r => dict_get "valor" r = None) dados \/
  Exists (fun r => exists c, dict_get "data" r = Some c /\ date_converts c = false)
         dados ->
  returned_frame (processar_dados_deficit dados) st = Some empty_frame /\
  returned_frame (processar_dados_iof dados) st = Some empty_frame.
Proof.
  intros Hcase. unfold processar_dados_deficit, processar_dados_iof.
  rewrite !processar_dados_returned.
  by rewrite !(processado_unusable _ dados Hcase).
Qed.

Lemma processar_dados_unusable_input_witness :
  returned_frame (processar_dados_deficit []) [] = Some empty_frame /\
  returned_frame (processar_dados_iof []) [] = Some empty_frame.
Proof.
  apply processar_dados_unusable_input. left. constructor.
Defined.

(** X10. A result of [processar_dados_deficit] (label [deficit]) or
    [processar_dados_iof] (label [iof]) that is not the empty frame has the
    columns of the records with [valor] renamed to the label; in every row
    the value is a number and the date is a timestamp or missing; the rows
    are in ascending order of date, missing dates last; and there are no
    more rows than records. *)
Theorem processar_dados_result_rows `{PandasConv}
    (st : store) (rotulo : string) (dados : list record) (res : DataFrame) :
  returned_frame (processar_dados_como rotulo dados) st = Some res ->
  res = empty_frame \/
  exists i k,
    col_index "data" (columns (from_records dados)) = Some i /\
    col_index "valor" (columns (from_records dados)) = Some k /\
    columns res =
      map (rename_label [("valor", rotulo)]) (columns (from_records dados)) /\
    Forall (fun r => (exists q, get_cell k r = CNum q) /\
                     (get_cell i r = CNull \/ exists t, get_cell i r = CDate t))
           (rows res) /\
    not_descending (by_column i) (rows res) /\
    (length (rows res) <= length dados)%nat.
Proof.
  rewrite processar_dados_returned. intros [= <-].
  destruct (col_index "data" (columns (from_records dados))) as [i |] eqn:Hi;
    cycle 1.
  { left. unfold processado, processado_value, get_column. cbv zeta.
    by rewrite Hi. }
  destruct (col_index "valor" (columns (from_records dados))) as [k |] eqn:Hk;
    cycle 1.
  { left. unfold processado, processado_value. cbv zeta.
    unfold get_column at 1. rewrite Hi.
    destruct (to_datetime _) as [e | data']; [done |].
    unfold get_column. rewrite (set_column_existing _ _ _ _ Hi).
    by rewrite Hk. }
  destruct (processado_rows rotulo dados i k Hi Hk) as [-> | Hrows];
    [by left | right].
  exists i, k. tauto.
Qed.

Lemma processar_dados_result_rows_witness :
  exists res,
    returned_frame
      (processar_dados_deficit
         [[("data", CStr "2023-02-01"); ("valor", CStr "12.5")];
          [("data", CStr "2023-01-01"); ("valor", CStr "x")];
          [("valor", CNum 3); ("data", CStr "2023-01-05")]]) [] = Some res /\
    (res = empty_frame \/
     exists i k,
       col_index "data" ["data"; "valor"] = Some i /\
       col_index "valor" ["data"; "valor"] = Some k /\
       columns res = ["data"; "deficit"] /\
       Forall (fun r => (exists q, get_cell k r = CNum q) /\
                        (get_cell i r = CNull \/ exists t, get_cell i r = CDate t))
              (rows res) /\
       not_descending (by_column i) (rows res) /\
       (length (rows res) <= 3)%nat).
Proof.
  eexists. split; [vm_compute; reflexivity |].
  eapply (processar_dados_result_rows [] "deficit"
            [[("data", CStr "2023-02-01"); ("valor", CStr "12.5")];
             [("data", CStr "2023-01-01"); ("valor", CStr "x")];
             [("valor", CNum 3); ("data", CStr "2023-01-05")]]).
  vm_compute. reflexivity.
Defined.

(** ** [processar_dados_deficit] and [processar_dados_iof]: the rows kept *)

Lemma filter_map_length {A B : Type} (p : B -> bool) (f : A -> B) (l : list A) :
  length (List.filter p (map f l)) = length (List.filter (fun x => p (f x)) l).
Proof.
  induction l as [| x l IH]; [done |]. cbn.
  destruct (p (f x)); cbn; by rewrite IH.
Qed.

Lemma col_index_from_records_some (k : string) (dados : list record) :
  Exists (fun r => dict_get k r <> None) dados ->
  exists i, col_index k (columns (from_records dados)) = Some i.
Proof.
  intros Hex.
  destruct (col_index k (columns (from_records dados))) as [i |] eqn:Hi; [eauto |].
  apply col_index_none in Hi. rewrite in_columns_from_records in Hi.
  apply Exists_exists in Hex. destruct Hex as (r & Hr & Hk).
  assert (existsb (fun r => in_columns k (map fst r)) dados = true) as Htrue;
    [| congruence].
  apply existsb_exists. exists r. split.
  - by apply (proj1 (list_elem_of_In _ _)).
  - destruct (in_columns k (map fst r)) eqn:Hin; [done |].
    by apply dict_get_in_columns in Hin.
Qed.

(** ** From the records to the series the model is trained on *)

Lemma col_index_rename_other (c rotulo : string) (cols : list string) :
  c <> "valor" -> c <> rotulo ->
  col_index c (map (rename_label [("valor", rotulo)]) cols) = col_index c cols.
Proof.
  intros Hv Hr. induction cols as [| x cols IH]; [done |].
  cbn [map col_index]. rewrite IH.
  cbn [rename_label map fst in_columns].
  destruct (String.eqb_spec x "valor") as [-> | Hx].
  - destruct (String.eqb_spec c rotulo) as [? | _]; [done |].
    by destruct (String.eqb_spec c "valor").
  - reflexivity.
Qed.

Lemma col_index_rename_valor (rotulo : string) (cols : list string) :
  rotulo <> "valor" ->
  in_columns rotulo cols = false ->
  col_index rotulo (map (rename_label [("valor", rotulo)]) cols)
  = col_index "valor" cols.
Proof.
  intros Hne. induction cols as [| x cols IH]; [done |].
  cbn [in_columns]. destruct (String.eqb_spec rotulo x) as [? | Hx]; [done |].
  intros Hin. cbn [map col_index]. rewrite (IH Hin).
  cbn [rename_label map fst in_columns].
  destruct (String.eqb_spec x "valor") as [-> | Hxv].
  - rewrite String.eqb_refl. by destruct (String.eqb_spec "valor" "valor").
  - destruct (String.eqb_spec rotulo x) as [? | _]; [done |].
    destruct (String.eqb_spec "valor" x) as [? | _]; [congruence | done].
Qed.

Section Pipeline.
Context `{PandasConv}.

Lemma returned_frame_then_preparar (m : M ref) (st st1 : store) (n : nat)
    (d : DataFrame) (cd cv : string) :
  m st = (st1, inr n) ->
  st1 !! n = Some d ->
  returned_frame (m ≫= fun r => preparar_dados r cd cv) st
  = Some (prepared d cd cv).
Proof.
  intros Hm Hn. unfold returned_frame. rewrite bind_run, Hm.
  destruct (preparar_dados_run st1 n d cd cv Hn) as [extra ->].
  apply lookup_result.
Qed.

(** The prepared form of a processed frame is canonical or empty. *)
Lemma prepared_processado (rotulo : string) (dados : list record) :
  rotulo <> "valor" ->
  rotulo <> "data" ->
  Forall (fun r => dict_get rotulo r = None) dados ->
  prepared (processado rotulo dados) "data" rotulo = empty_frame \/
  is_canonical (prepared (processado rotulo dados) "data" rotulo) = true.
Proof.
  intros Hrv Hrd Hfree.
  destruct (col_index "data" (columns (from_records dados))) as [i |] eqn:Hi;
    cycle 1.
  { left. rewrite processado_unusable; [done |]. left.
    apply Forall_forall. intros r Hr.
    apply col_index_none in Hi. rewrite in_columns_from_records in Hi.
    destruct (dict_get "data" r) eqn:Hg; [| done].
    assert (existsb (fun r => in_columns "data" (map fst r)) dados = true);
      [| congruence].
    apply existsb_exists. exists r.
    split; [by apply (proj1 (list_elem_of_In _ _)) |].
    destruct (in_columns "data" (map fst r)) eqn:Hin; [done |].
    apply dict_get_in_columns in Hin. congruence. }
  destruct (col_index "valor" (columns (from_records dados))) as [k |] eqn:Hk;
    cycle 1.
  { left. rewrite processado_unusable; [done |]. right. left.
    apply Forall_forall. intros r Hr.
    apply col_index_none in Hk. rewrite in_columns_from_records in Hk.
    destruct (dict_get "valor" r) eqn:Hg; [| done].
    assert (existsb (fun r => in_columns "valor" (map fst r)) dados = true);
      [| congruence].
    apply existsb_exists. exists r.
    split; [by apply (proj1 (list_elem_of_In _ _)) |].
    destruct (in_columns "valor" (map fst r)) eqn:Hin; [done |].
    apply dict_get_in_columns in Hin. congruence. }
  destruct (processado_rows rotulo dados i k Hi Hk)
    as [-> | (Hcols & Hshape & _ & _)]; [by left |].
  destruct (df_empty (processado rotulo dados)) eqn:He.
  { left. unfold prepared. by rewrite He. }
  right.
  assert (col_index "data" (columns (processado rotulo dados)) = Some i) as Hi'.
  { rewrite Hcols, col_index_rename_other; done. }
  assert (col_index rotulo (columns (processado rotulo dados)) = Some k) as Hk'.
  { rewrite Hcols, col_index_rename_valor; [done | done |].
    apply col_index_none. by apply col_index_from_records_none. }
  rewrite (prepared_frame _ "data" rotulo i k He Hi' Hk'); [| congruence].
  assert (forallb (fun r => date_converts (get_cell i r))
            (rows (processado rotulo dados)) = true) as ->.
  { apply forallb_forall. intros r Hr. rewrite Forall_forall in Hshape.
    apply (proj2 (list_elem_of_In _ _)) in Hr.
    destruct (Hshape r Hr) as [_ [-> | [t ->]]]; reflexivity. }
  unfold is_canonical. cbn [columns rows].
  apply andb_true_iff. split; [apply andb_true_iff; split; [done |] |].
  - apply forallb_forall. intros r Hr.
    apply (proj2 (list_elem_of_In _ _)) in Hr. rewrite sort_by_perm in Hr.
    apply (proj1 (list_elem_of_In _ _)) in Hr.
    apply filter_In in Hr. destruct Hr as [Hr Hc].
    apply in_map_iff in Hr. destruct Hr as (r0 & <- & Hr0).
    rewrite Forall_forall in Hshape.
    apply (proj2 (list_elem_of_In _ _)) in Hr0.
    destruct (Hshape r0 Hr0) as [[q Hq] Hd].
    unfold canonical_row, prepared_row. cbn [cells]. rewrite Hq.
    unfold complete_row, prepared_row in Hc. cbn in Hc.
    destruct Hd as [Hd | [t Hd]]; rewrite Hd in *; [discriminate | reflexivity].
  - apply not_descending_ascending, sort_by_not_descending, by_ds_asym.
Qed.

End Pipeline.

(** X12. The two steps the program chains, from records to the series the
    model is trained on: [processar_dados_deficit] followed by
    [preparar_dados] on the columns [data] and [deficit] yields a canonical
    series (columns [ds] and [y], a timestamp and a number in every row,
    ascending dates) or the empty frame, whatever the records hold, as long
    as none has a field already named [deficit]. The same holds for
    [processar_dados_iof] with [iof]. *)
Theorem processar_then_preparar_canonical `{PandasConv}
    (st : store) (dados : list record) (res : DataFrame) :
  (Forall (fun r => dict_get "deficit" r = None) dados ->
   returned_frame
     (processar_dados_deficit dados ≫= fun r => preparar_dados r "data" "deficit")
     st = Some res ->
   res = empty_frame \/ is_canonical res = true) /\
  (Forall (fun r => dict_get "iof" r = None) dados ->
   returned_frame
     (processar_dados_iof dados ≫= fun r => preparar_dados r "data" "iof")
     st = Some res ->
   res = empty_frame \/ is_canonical res = true).
Proof.
  unfold processar_dados_deficit, processar_dados_iof. split.
  - intros Hfree.
    destruct (processar_dados_returns st "deficit" dados) as [extra Hrun].
    rewrite (returned_frame_then_preparar _ _ _ _ _ _ _ Hrun (lookup_result _ _ _)).
    intros [= <-]. by apply prepared_processado.
  - intros Hfree.
    destruct (processar_dados_returns st "iof" dados) as [extra Hrun].
    rewrite (returned_frame_then_preparar _ _ _ _ _ _ _ Hrun (lookup_result _ _ _)).
    intros [= <-]. by apply prepared_processado.
Qed.

Lemma processar_then_preparar_canonical_witness :
  exists res,
    returned_frame
      (processar_dados_deficit
         [[("data", CStr "2023-02-01"); ("valor", CStr "12.5")];
          [("data", CStr "2023-01-01"); ("valor", CStr "x")];
          [("valor", CNum 3); ("data", CStr "2023-01-05")]]
       ≫= fun r => preparar_dados r "data" "deficit") [] = Some res /\
    (res = empty_frame \/ is_canonical res = true).
Proof.
  eexists. split; [vm_compute; reflexivity |].
  eapply (proj1 (processar_then_preparar_canonical []
            [[("data", CStr "2023-02-01"); ("valor", CStr "12.5")];
             [("data", CStr "2023-01-01"); ("valor", CStr "x")];
             [("valor", CNum 3); ("data", CStr "2023-01-05")]] _)).
  - repeat constructor.
  - vm_compute. reflexivity.
Defined.

(** ** [carregar_dados_json] *)

(** X13. [carregar_dados_json] returns the records of the first directory,
    in the order given, where the file exists and can be read: directories
    without the file, or with a file that cannot be read, are passed over,
    and the directories after it are not looked at. *)
Theorem carregar_dados_json_first_readable (fs : FileSystem)
    (nome : string) (antes depois : list string) (dir : string)
    (dados : list record) :
  Forall (unreadable fs nome) antes ->
  path_exists fs (os_path_join dir nome) = true ->
  json_load fs (os_path_join dir nome) = Some dados ->
  carregar_dados_json fs nome (antes ++ dir :: depois) = dados.
Proof.
  intros Hantes Hex Hload.
  induction Hantes as [| d antes [Hd | Hd] _ IH]; cbn [app carregar_dados_json].
  - by rewrite Hex, Hload.
  - by rewrite Hd.
  - rewrite Hd. by destruct (path_exists fs (os_path_join d nome)).
Qed.

Lemma carregar_dados_json_first_readable_witness :
  carregar_dados_json fs_exemplo "deficit_primario.json"
    (["/srv/dados"; "data"] ++ "/app/data" :: ["/tmp"])
  = [[("data", CStr "2023-01-01"); ("valor", CNum 10)]].
Proof.
  apply carregar_dados_json_first_readable.
  - constructor; [left; reflexivity |].
    constructor; [right; reflexivity | constructor].
  - reflexivity.
  - reflexivity.
Defined.

(** X14. When the file can be had from none of the directories,
    [carregar_dados_json] returns the empty list; it raises nothing, also
    when a file exists and cannot be read. *)
Theorem carregar_dados_json_not_found (fs : FileSystem)
    (nome : string) (dirs : list string) :
  Forall (unreadable fs nome) dirs ->
  carregar_dados_json fs nome dirs = [].
Proof.
  induction 1 as [| d dirs [Hd | Hd] _ IH]; cbn [carregar_dados_json].
  - reflexivity.
  - by rewrite Hd.
  - rewrite Hd. by destruct (path_exists fs (os_path_join d nome)).
Qed.

Lemma carregar_dados_json_not_found_witness :
  carregar_dados_json fs_exemplo "deficit_primario.json" ["/srv/dados"; "data"]
  = [].
Proof.
  apply carregar_dados_json_not_found.
  constructor; [left; reflexivity |].
  constructor; [right; reflexivity | constructor].
Defined.

(** ** [plotar_previsao] and [plotar_componentes] *)

(** X15. [plotar_previsao] returns a figure only for an engine of the kind
    [prophet] that holds a model, and the figure is the one the library drew
    for that model and forecast, with the title given, the axes named [Data]
    and [Valor] and the hover mode [x unified]. [plotar_componentes] returns
    a figure under the same condition, as the library drew it. *)
Theorem plotar_returns_figure {model fig : Type} `{PlotAPI model fig}
    (self : PrevisorSeriesTemporal model) (previsao : list ForecastRow)
    (titulo : string) (f : fig) :
  (plotar_previsao self previsao titulo = inr f ->
   exists m f0,
     modelo self = Some m /\ tipo_modelo self = "prophet" /\
     plot_plotly m previsao = Some f0 /\
     update_layout f0 (mkLayout titulo "Data" "Valor" "x unified") = Some f) /\
  (plotar_componentes self previsao = inr f ->
   exists m,
     modelo self = Some m /\ tipo_modelo self = "prophet" /\
     plot_components_plotly m previsao = Some f).
Proof.
  unfold plotar_previsao, plotar_componentes. split.
  - destruct (modelo self) as [m |]; [| done].
    destruct (String.eqb_spec (tipo_modelo self) "prophet") as [Ht | _]; [| done].
    destruct (plot_plotly m previsao) as [f0 |] eqn:Hp; [| done].
    destruct (update_layout f0 _) as [f' |] eqn:Hu; [| done].
    intros [= <-]. eauto 8.
  - destruct (modelo self) as [m |]; [| done].
    destruct (String.eqb_spec (tipo_modelo self) "prophet") as [Ht | _]; [| done].
    destruct (plot_components_plotly m previsao) as [f0 |] eqn:Hp; [| done].
    intros [= <-]. eauto.
Qed.

(** ** The forecast of the selected indicator *)

(** When the resolver answers a column it shows no message. *)
Lemma obter_coluna_valor_some (hint : option string) (nome : string)
    (d : DataFrame) (c : string) (msgs : list mensagem) :
  obter_coluna_valor hint nome d = (Some c, msgs) -> msgs = [].
Proof.
  unfold obter_coluna_valor.
  destruct (match hint with
            | Some c0 => truthy c0 && in_columns c0 (columns d)
            | None => false
            end); [by intros [= _ <-] |].
  destruct (in_columns "valor" (columns d)); [by intros [= _ <-] |].
  destruct (in_columns "deficit" (columns d)); [by intros [= _ <-] |].
  destruct (in_columns "iof" (columns d)); [by intros [= _ <-] |].
  destruct (List.filter _ (columns d)); [done | by intros [= _ <-]].
Qed.

Lemma obter_coluna_valor_none (hint : option string) (nome : string)
    (d : DataFrame) (msgs : list mensagem) :
  obter_coluna_valor hint nome d = (None, msgs) -> msgs = [ErroColunaValor nome].
Proof.
  unfold obter_coluna_valor.
  destruct (match hint with
            | Some c0 => truthy c0 && in_columns c0 (columns d)
            | None => false
            end) eqn:Hh.
  { destruct hint; [| done]. done. }
  destruct (in_columns "valor" (columns d)); [done |].
  destruct (in_columns "deficit" (columns d)); [done |].
  destruct (in_columns "iof" (columns d)); [done |].
  destruct (List.filter _ (columns d)); [by intros [= <-] | done].
Qed.

Section GerarPrevisaoRun.
Context `{PandasConv}.
Context {model fig : Type} `{ProphetAPI model} `{PlotAPI model fig}.

(** The run of the flow when a column was found: the frame is prepared,
    and the page shows the outcome of training and prediction on it. *)
Lemma gerar_previsao_run (st : store) (df : ref) (d : DataFrame)
    (hint : option string) (nome c : string) (msgs : list mensagem)
    (anual semanal diaria : bool) (modo : string) (escala : Q)
    (periodo : Z) (agora : Timestamp) :
  st !! df = Some d ->
  obter_coluna_valor hint nome d = (Some c, msgs) ->
  truthy c = true ->
  exists extra : store,
    gerar_previsao (model := model) (fig := fig) df hint nome anual semanal
      diaria modo escala periodo agora st =
    (st ++ extra ++ [prepared d "data" c],
     inr (desfecho (prepared d "data" c)
            (map (fun m => ElErro (ErroResolucao m)) msgs)
            nome anual semanal diaria modo escala periodo agora)).
Proof.
  intros Hd Hcol Hc. unfold gerar_previsao.
  rewrite bind_run, (deref_some _ _ _ Hd), Hcol, Hc, bind_run.
  destruct (preparar_dados_run st df d "data" c Hd) as [extra ->].
  exists extra.
  rewrite bind_run, (deref_some _ _ _ (lookup_result st extra _)).
  unfold desfecho.
  destruct (treinar _ (prepared d "data" c)) as [p [e | []]]; [done |].
  by destruct (prever p periodo).
Qed.

Lemma gerar_previsao_no_column (st : store) (df : ref) (d : DataFrame)
    (hint : option string) (nome : string)
    (anual semanal diaria : bool) (modo : string) (escala : Q)
    (periodo : Z) (agora : Timestamp) :
  st !! df = Some d ->
  fst (obter_coluna_valor hint nome d) = None ->
  gerar_previsao (model := model) (fig := fig) df hint nome anual semanal
    diaria modo escala periodo agora st =
  (st, inr [ElErro (ErroResolucao (ErroColunaValor nome))]).
Proof.
  intros Hd Hnone. unfold gerar_previsao.
  rewrite bind_run, (deref_some _ _ _ Hd).
  destruct (obter_coluna_valor hint nome d) as [cv msgs] eqn:Hcol.
  cbn [fst] in Hnone. subst cv.
  by rewrite (obter_coluna_valor_none _ _ _ _ Hcol).
Qed.

End GerarPrevisaoRun.

Lemma plotar_returns_figure_witness :
  exists m,
    modelo (fst (treinar previsor_exemplo serie_canonica)) = Some m /\
    tipo_modelo (fst (treinar previsor_exemplo serie_canonica)) = "prophet" /\
    plot_components_plotly m previsao_exemplo
    = Some (SimplePlot.mkFig previsao_exemplo None).
Proof.
  apply (proj2 (plotar_returns_figure
                  (fst (treinar previsor_exemplo serie_canonica))
                  previsao_exemplo "" (SimplePlot.mkFig previsao_exemplo None))).
  vm_compute. reflexivity.
Defined.

(** X16. The forecast flow of the page never changes a frame that existed
    before: the indicator's table is read, prepared on a copy, and left as
    it was, whatever the outcome. *)
Theorem gerar_previsao_keeps_store `{PandasConv} {model fig : Type}
    `{ProphetAPI model} `{PlotAPI model fig}
    (st : store) (df : ref) (hint : option string) (nome : string)
    (anual semanal diaria : bool) (modo : string) (escala : Q)
    (periodo : Z) (agora : Timestamp) :
  take (length st)
    (final_store
       (gerar_previsao (model := model) (fig := fig) df hint nome anual semanal
          diaria modo escala periodo agora) st) = st.
Proof.
  unfold final_store.
  destruct (st !! df) as [d |] eqn:Hd; cycle 1.
  { unfold gerar_previsao. rewrite bind_run. unfold deref. rewrite Hd.
    apply firstn_all. }
  destruct (obter_coluna_valor hint nome d) as [[c |] msgs] eqn:Hcol; cycle 1.
  { rewrite (gerar_previsao_no_column st df d); [apply firstn_all | done |].
    by rewrite Hcol. }
  destruct (truthy c) eqn:Hc.
  - destruct (gerar_previsao_run (model := model) (fig := fig) st df d hint nome
                c msgs anual semanal diaria modo escala periodo agora Hd Hcol Hc)
      as [extra ->].
    apply take_app_length.
  - unfold gerar_previsao.
    rewrite bind_run, (deref_some _ _ _ Hd), Hcol, Hc. apply firstn_all.
Qed.

(** X17. When no value column is found for the indicator, the flow shows
    the one message that says so and does nothing else: no frame is
    prepared and no model is built. *)
Theorem gerar_previsao_no_value_column `{PandasConv} {model fig : Type}
    `{ProphetAPI model} `{PlotAPI model fig}
    (st : store) (df : ref) (d : DataFrame) (hint : option string)
    (nome : string) (anual semanal diaria : bool) (modo : string) (escala : Q)
    (periodo : Z) (agora : Timestamp) :
  st !! df = Some d ->
  fst (obter_coluna_valor hint nome d) = None ->
  returned_value
    (gerar_previsao (model := model) (fig := fig) df hint nome anual semanal
       diaria modo escala periodo agora) st
  = Some [ElErro (ErroResolucao (ErroColunaValor nome))] /\
  final_store
    (gerar_previsao (model := model) (fig := fig) df hint nome anual semanal
       diaria modo escala periodo agora) st = st.
Proof.
  intros Hd Hnone. unfold returned_value, final_store.
  by rewrite (gerar_previsao_no_column st df d).
Qed.

Lemma gerar_previsao_no_value_column_witness :
  returned_value
    (gerar_previsao (model := SimpleProphet.model) (fig := SimplePlot.fig)
       0%nat None "IOF" true false false "multiplicative" (5 # 100)%Q 12
       (timestamp_of_date 2026 11 4))
    [mkDF ["data"; "obs"] [linha 0 (CStr "2023-01-01") (CStr "a")]]
  = Some [ElErro (ErroResolucao (ErroColunaValor "IOF"))].
Proof.
  apply (gerar_previsao_no_value_column
           [mkDF ["data"; "obs"] [linha 0 (CStr "2023-01-01") (CStr "a")]]
           0%nat (mkDF ["data"; "obs"] [linha 0 (CStr "2023-01-01") (CStr "a")])).
  - reflexivity.
  - reflexivity.
Defined.

(** X18. When [preparar_dados] leaves fewer than two rows for the chosen
    column (the table has no column [data], a date does not parse, too few
    rows are complete), the flow shows the message of a failed training and
    nothing else: the failure of the preparation is not told apart. *)
Theorem gerar_previsao_too_few_rows `{PandasConv} {model fig : Type}
    `{ProphetAPI model} `{PlotAPI model fig}
    (st : store) (df : ref) (d dp : DataFrame) (hint : option string)
    (nome c : string) (msgs : list mensagem)
    (anual semanal diaria : bool) (modo : string) (escala : Q)
    (periodo : Z) (agora : Timestamp) :
  st !! df = Some d ->
  obter_coluna_valor hint nome d = (Some c, msgs) ->
  truthy c = true ->
  returned_frame (preparar_dados df "data" c) st = Some dp ->
  (df_len dp < 2)%nat ->
  returned_value
    (gerar_previsao (model := model) (fig := fig) df hint nome anual semanal
       diaria modo escala periodo agora) st
  = Some [ElErro ErroTreinarModelo].
Proof.
  intros Hd Hcol Hc Hdp Hlen. unfold returned_value.
  destruct (gerar_previsao_run (model := model) (fig := fig) st df d hint nome
              c msgs anual semanal diaria modo escala periodo agora Hd Hcol Hc)
    as [extra ->].
  rewrite (preparar_dados_returns st df d "data" c Hd) in Hdp.
  injection Hdp as <-.
  rewrite (obter_coluna_valor_some _ _ _ _ _ Hcol).
  unfold desfecho, treinar.
  assert ((df_len (prepared d "data" c) <? 2)%nat = true) as ->
    by by apply Nat.ltb_lt.
  by rewrite orb_true_r.
Qed.

Lemma gerar_previsao_too_few_rows_witness :
  returned_value
    (gerar_previsao (model := SimpleProphet.model) (fig := SimplePlot.fig)
       0%nat None "IOF" true false false "multiplicative" (5 # 100)%Q 12
       (timestamp_of_date 2026 11 4))
    [serie_com_data_invalida]
  = Some [ElErro ErroTreinarModelo].
Proof.
  apply (gerar_previsao_too_few_rows [serie_com_data_invalida] 0%nat
           serie_com_data_invalida empty_frame None "IOF" "valor" []).
  - reflexivity.
  - reflexivity.
  - reflexivity.
  - vm_compute. reflexivity.
  - vm_compute. lia.
Defined.

(** ** The years selected by default *)

(** X20. The years selected by default are the last three of the years
    available, and all of them when there are three or fewer: a suffix of
    the list, of at most three years, in the same order. *)
Theorem default_anos_last_three (anos : list Z) :
  default_anos anos = drop (length anos - 3) anos /\
  (length (default_anos anos) <= 3)%nat /\
  exists antes, anos = antes ++ default_anos anos.
Proof.
  assert (default_anos anos = drop (length anos - 3) anos) as Heq.
  { unfold default_anos. destruct (3 <? length anos)%nat eqn:Hlen; [done |].
    apply Nat.ltb_ge in Hlen.
    replace (length anos - 3)%nat with 0%nat by lia. reflexivity. }
  split; [exact Heq |]. rewrite Heq. split.
  - rewrite length_drop. lia.
  - exists (take (length anos - 3) anos). by rewrite take_drop.
Qed.

(** ** The indicators read from JSON files *)

Section IndicadoresJsonFacts.
Context `{PandasConv}.

Lemma all_non_empty_grow (st extra : list DataFrame) (ind : gmap string nat) :
  all_non_empty st ind -> all_non_empty (st ++ extra) ind.
Proof.
  intros Hall id r Hr. destruct (Hall id r Hr) as (d & Hd & He).
  exists d. split; [| done].
  rewrite lookup_app_l; [done |]. by eapply lookup_lt_Some.
Qed.

(** One block: the store grows, what was registered stays, only [id] can
    be added, and every frame registered is not empty. *)
Lemma carregar_de_json_run (fs : FileSystem) (dirs : list string)
    (id arquivo rotulo : string) (processar : list record -> M nat)
    (ind : gmap string nat) (st : list DataFrame) :
  (forall dados, processar dados = processar_dados_como rotulo dados) ->
  all_non_empty st ind ->
  exists (extra : list DataFrame) (ind' : gmap string nat),
    carregar_de_json fs dirs id arquivo processar ind st
    = (st ++ extra, inr ind') /\
    all_non_empty (st ++ extra) ind' /\
    ind ⊆ ind' /\
    (forall k, k <> id -> ind' !! k = ind !! k).
Proof.
  intros Hproc Hall. unfold carregar_de_json. rewrite bind_run.
  destruct (ind !! id) as [r |] eqn:Hid.
  - destruct (Hall id r Hid) as (d & Hd & He).
    rewrite bind_run, (deref_some _ _ _ Hd). cbn. rewrite He.
    exists [], ind. rewrite app_nil_r. done.
  - cbn.
    destruct (carregar_dados_json fs arquivo dirs) as [| r0 dados] eqn:Hload.
    { exists [], ind. rewrite app_nil_r. done. }
    rewrite bind_run, Hproc.
    destruct (processar_dados_returns st rotulo (r0 :: dados)) as [extra ->].
    rewrite bind_run, (deref_some _ _ _ (lookup_result st extra _)).
    destruct (df_empty (processado rotulo (r0 :: dados))) eqn:He.
    + exists (extra ++ [processado rotulo (r0 :: dados)]), ind.
      split; [done |]. split; [by apply all_non_empty_grow |]. done.
    + exists (extra ++ [processado rotulo (r0 :: dados)]),
        (<[id := (length st + length extra)%nat]> ind).
      split; [done |]. split; [| split].
      * intros k r Hk. destruct (decide (k = id)) as [-> | Hne].
        -- rewrite lookup_insert_eq in Hk. injection Hk as <-.
           exists (processado rotulo (r0 :: dados)).
           split; [apply lookup_result | done].
        -- rewrite lookup_insert_ne in Hk by done.
           by apply (all_non_empty_grow st _ ind Hall k r).
      * by apply insert_subseteq.
      * intros k Hk. by rewrite lookup_insert_ne.
Qed.

End IndicadoresJsonFacts.

(** X21. The fallback on the JSON files keeps what was loaded before: when
    every indicator registered has a frame that is not empty (as the loading
    from the database leaves them), the two blocks return normally, keep
    every indicator and every frame they found, add at most the indicators
    [deficit_primario] and [iof], and register no empty frame. *)
Theorem carregar_indicadores_json_invariant `{PandasConv}
    (fs : FileSystem) (dirs : list string) (ind : gmap string nat)
    (st : list DataFrame) :
  all_non_empty st ind ->
  exists (extra : list DataFrame) (ind' : gmap string nat),
    carregar_indicadores_json fs dirs ind st = (st ++ extra, inr ind') /\
    all_non_empty (st ++ extra) ind' /\
    ind ⊆ ind' /\
    (forall k, k <> "deficit_primario" -> k <> "iof" -> ind' !! k = ind !! k).
Proof.
  intros Hall. unfold carregar_indicadores_json. rewrite bind_run.
  destruct (carregar_de_json_run fs dirs "deficit_primario"
              "deficit_primario.json" "deficit" processar_dados_deficit ind st
              (fun _ => eq_refl) Hall)
    as (extra1 & ind1 & -> & Hall1 & Hsub1 & Hsame1).
  pose proof (carregar_de_json_run fs dirs "iof" "arrecadacao_iof.json" "iof"
                processar_dados_iof ind1 (st ++ extra1)
                (fun _ => eq_refl) Hall1) as Hrun2.
  destruct Hrun2 as (extra2 & ind2 & Hrun2 & Hall2 & Hsub2 & Hsame2).
  exists (extra1 ++ extra2), ind2.
  rewrite app_assoc. split; [exact Hrun2 |]. split; [exact Hall2 |]. split.
  - by transitivity ind1.
  - intros k Hk1 Hk2. by rewrite Hsame2, Hsame1.
Qed.

Lemma carregar_indicadores_json_invariant_witness :
  exists (extra : list DataFrame) (ind' : gmap string nat),
    carregar_indicadores_json fs_exemplo ["/srv/dados"; "/app/data"]
      {["selic" := 0%nat]} [serie_com_texto]
    = ([serie_com_texto] ++ extra, inr ind') /\
    all_non_empty ([serie_com_texto] ++ extra) ind' /\
    ({["selic" := 0%nat]} : gmap string nat) ⊆ ind' /\
    (forall k, k <> "deficit_primario" -> k <> "iof" ->
               ind' !! k = ({["selic" := 0%nat]} : gmap string nat) !! k).
Proof.
  apply (carregar_indicadores_json_invariant fs_exemplo
           ["/srv/dados"; "/app/data"] {["selic" := 0%nat]} [serie_com_texto]).
  intros id r Hid.
  apply lookup_singleton_Some in Hid. destruct Hid as [_ <-].
  exists serie_com_texto. split; reflexivity.
Defined.

(** * The sort left open *)

Section SortLastFacts.
Context {A : Type} (lt : A -> A -> bool).
Hypothesis lt_asym : forall a b, lt a b = true -> lt b a = false.

Lemma insert_last_perm (x : A) (l : list A) : insert_last lt x l ≡ₚ x :: l.
Proof.
  induction l as [| h t IH]; [done |]. cbn [insert_last].
  destruct (lt x h); [done |]. rewrite IH. apply Permutation_swap.
Qed.

Lemma sort_by_last_perm (l : list A) : sort_by_last lt l ≡ₚ l.
Proof.
  induction l as [| x t IH]; [done |]. cbn [sort_by_last].
  by rewrite insert_last_perm, IH.
Qed.

Lemma insert_last_not_descending (x : A) (l : list A) :
  not_descending lt l -> not_descending lt (insert_last lt x l).
Proof.
  induction l as [| h t IH]; [done |]. intros Hl.
  cbn [insert_last]. destruct (lt x h) eqn:Hxh.
  - split; [by apply lt_asym | exact Hl].
  - assert (not_descending lt t) as Ht.
    { destruct t; [done |]. apply Hl. }
    specialize (IH Ht).
    destruct t as [| h2 t2].
    + cbn. split; [exact Hxh | done].
    + cbn [insert_last] in *. destruct Hl as [Hh2 _].
      destruct (lt x h2); split; done.
Qed.

Lemma sort_by_last_not_descending (l : list A) :
  not_descending lt (sort_by_last lt l).
Proof.
  induction l as [| x t IH]; [done |].
  cbn [sort_by_last]. by apply insert_last_not_descending.
Qed.

End SortLastFacts.

Lemma unstable_sorter_correct : correct_sorter unstable_sorter.
Proof.
  intros lt l Hasym. split.
  - apply sort_by_last_perm.
  - by apply sort_by_last_not_descending.
Qed.

Lemma stable_sorter_correct : correct_sorter stable_sorter.
Proof.
  intros lt l Hasym. split.
  - apply sort_by_perm.
  - by apply sort_by_not_descending.
Qed.

Lemma df_sort_values_with_snoc (srt : sorter) (st : list DataFrame)
    (d : DataFrame) (c : string) :
  df_sort_values_with srt (length st) c (st ++ [d]) =
  match sort_values_with srt c d with
  | inl e => (st ++ [d], inl e)
  | inr d' => ((st ++ [d]) ++ [d'], inr (length (st ++ [d])))
  end.
Proof.
  unfold df_sort_values_with. rewrite bind_run, deref_snoc, bind_run.
  unfold lift. by destruct (sort_values_with srt c d).
Qed.

Section PrepararDadosWithFacts.
Context `{PandasConv}.

(** With the stable sort, the open definition is [preparar_dados]. *)
Lemma preparar_dados_with_stable (df : nat) (cd cv : string) :
  preparar_dados_with stable_sorter df cd cv = preparar_dados df cd cv.
Proof. reflexivity. Qed.

Lemma preparar_dados_with_run (srt : sorter) (st : list DataFrame) (df : nat)
    (d : DataFrame) (cd cv : string) :
  st !! df = Some d ->
  exists extra : list DataFrame,
    preparar_dados_with srt df cd cv st =
    (st ++ extra ++ [prepared_with srt d cd cv],
     inr (length st + length extra)%nat).
Proof.
  intros Hd. unfold preparar_dados_with, prepared_with, prepared_value_with.
  rewrite bind_run, (deref_some _ _ _ Hd).
  destruct (df_empty d).
  { exists []. store_eq. }
  unfold try_except.
  rewrite bind_run, (df_getitem_columns_run _ _ _ _ Hd).
  destruct (select_columns [cd; cv] d) as [e | sel].
  { exists []. store_eq. }
  rewrite bind_run, df_copy_snoc.
  rewrite bind_run, df_rename_inplace_snoc.
  set (ren := rename_columns _ sel).
  rewrite bind_run, df_getitem_snoc.
  destruct (get_column "ds" ren) as [e | ds].
  { exists [sel; ren]. store_eq. }
  rewrite bind_run. unfold lift at 1.
  destruct (to_datetime ds) as [e | ds'].
  { exists [sel; ren]. store_eq. }
  rewrite bind_run, df_setitem_snoc.
  set (conv := set_column "ds" ds' ren).
  rewrite bind_run, df_dropna_snoc.
  destruct (dropna ["ds"; "y"] conv) as [e | dr].
  { exists [sel; conv]. store_eq. }
  rewrite bind_run, df_sort_values_with_snoc.
  destruct (sort_values_with srt "ds" dr) as [e | so].
  { exists [sel; conv; dr]. store_eq. }
  exists [sel; conv; dr]. store_eq.
Qed.

Lemma preparar_dados_with_returns (srt : sorter) (st : list DataFrame)
    (df : nat) (d : DataFrame) (cd cv : string) :
  st !! df = Some d ->
  returned_frame (preparar_dados_with srt df cd cv) st
  = Some (prepared_with srt d cd cv).
Proof.
  intros Hd. unfold returned_frame.
  destruct (preparar_dados_with_run srt st df d cd cv Hd) as [extra ->].
  apply lookup_result.
Qed.

Lemma prepared_with_frame (srt : sorter) (d : DataFrame) (cd cv : string)
    (i j : nat) :
  df_empty d = false ->
  col_index cd (columns d) = Some i ->
  col_index cv (columns d) = Some j ->
  cd <> cv ->
  prepared_with srt d cd cv =
  if forallb (fun r => date_converts (get_cell i r)) (rows d)
  then mkDF ["ds"; "y"]
         (srt by_ds (List.filter complete_row (map (prepared_row i j) (rows d))))
  else empty_frame.
Proof.
  intros He Hi Hj Hne. unfold prepared_with, prepared_value_with, select_columns.
  rewrite He. simpl col_indices. rewrite Hi, Hj.
  unfold rename_columns. cbn [columns rows]. rewrite (rename_two _ _ Hne).
  unfold get_column. cbn [columns rows col_index String.eqb Ascii.eqb Bool.eqb].
  rewrite map_map. cbn [get_cell cells nth map].
  rewrite to_datetime_spec, forallb_map_compose.
  destruct (forallb _ (rows d)); [| done].
  unfold set_column, dropna, sort_values_with.
  cbn [columns rows col_index col_indices String.eqb Ascii.eqb Bool.eqb].
  rewrite map_map, set_cells_prepared.
  reflexivity.
Qed.

Lemma prepared_with_cases (srt : sorter) (d : DataFrame) (cd cv : string) :
  prepared_with srt d cd cv = empty_frame \/
  exists i j,
    col_index cd (columns d) = Some i /\
    col_index cv (columns d) = Some j /\
    prepared_with srt d cd cv =
    mkDF ["ds"; "y"]
      (srt by_ds (List.filter complete_row (map (prepared_row i j) (rows d)))).
Proof.
  destruct (df_empty d) eqn:He.
  { left. unfold prepared_with. by rewrite He. }
  destruct (col_index cd (columns d)) as [i |] eqn:Hi; cycle 1.
  { left. unfold prepared_with, prepared_value_with, select_columns. rewrite He.
    simpl col_indices. by rewrite Hi. }
  destruct (col_index cv (columns d)) as [j |] eqn:Hj; cycle 1.
  { left. unfold prepared_with, prepared_value_with, select_columns. rewrite He.
    simpl col_indices. by rewrite Hi, Hj. }
  destruct (String.eqb_spec cd cv) as [-> | Hne].
  { left. unfold prepared_with, prepared_value_with, select_columns. rewrite He.
    simpl col_indices. rewrite Hj.
    unfold rename_columns. cbn [columns rows]. by rewrite rename_same. }
  rewrite (prepared_with_frame srt d cd cv i j He Hi Hj Hne).
  destruct (forallb _ (rows d)); eauto 6.
Qed.

End PrepararDadosWithFacts.

(** ** Distinct dates leave one order *)

Lemma strictly_ascending_sorted (rs : list Row) :
  strictly_ascending rs = true ->
  Sorted (fun a b => ds_key a < ds_key b) rs.
Proof.
  induction rs as [| r1 rs IH]; [constructor |].
  destruct rs as [| r2 rs'].
  { intros _. repeat constructor. }
  cbn [strictly_ascending]. intros Hs.
  apply andb_true_iff in Hs. destruct Hs as [H12 Hrest].
  constructor; [by apply IH |]. constructor. by apply Z.ltb_lt.
Qed.

Lemma not_descending_sorted (rs : list Row) :
  Forall (fun r => exists t, get_cell 0 r = CDate t) rs ->
  not_descending by_ds rs ->
  Sorted (fun a b => ds_key a <= ds_key b) rs.
Proof.
  induction 1 as [| r1 rs [t1 H1] Hall IH]; [constructor |].
  destruct rs as [| r2 rs'].
  { intros _. repeat constructor. }
  intros [H12 Hrest]. constructor; [by apply IH |]. constructor.
  apply Forall_cons in Hall. destruct Hall as [[t2 H2] _].
  unfold by_ds in H12. unfold ds_key. rewrite H1, H2 in *.
  cbn in H12. apply Z.ltb_ge in H12. exact H12.
Qed.

Lemma sorted_weaken {A : Type} (R1 R2 : A -> A -> Prop) (l : list A) :
  (forall a b, R1 a b -> R2 a b) -> Sorted R1 l -> Sorted R2 l.
Proof.
  intros Himp. induction 1 as [| x l Hs IH Hh]; constructor; [done |].
  destruct Hh; constructor. by apply Himp.
Qed.

Lemma strictly_sorted_key_inj (rs : list Row) (x1 x2 : Row) :
  StronglySorted (fun a b => ds_key a < ds_key b) rs ->
  x1 ∈ rs -> x2 ∈ rs -> ds_key x1 = ds_key x2 -> x1 = x2.
Proof.
  induction 1 as [| r rs Hs IH Hr]; [by intros ?%elem_of_nil |].
  rewrite Forall_forall in Hr.
  intros [-> | H1]%elem_of_cons [-> | H2]%elem_of_cons Hk.
  - done.
  - specialize (Hr _ H2). lia.
  - specialize (Hr _ H1). lia.
  - by apply IH.
Qed.

(** Rows with distinct dates have one ascending order: every sorted
    rearrangement of them is the list itself. *)
Lemma sorted_rows_unique (l l' : list Row) :
  strictly_ascending l = true ->
  Forall (fun r => exists t, get_cell 0 r = CDate t) l ->
  l' ≡ₚ l ->
  not_descending by_ds l' ->
  l' = l.
Proof.
  intros Hstrict Hdates Hperm Hsorted.
  pose proof (strictly_ascending_sorted l Hstrict) as Hl.
  assert (Transitive (fun a b : Row => ds_key a < ds_key b)) as Htlt
    by (intros a b c; lia).
  assert (Transitive (fun a b : Row => ds_key a <= ds_key b)) as Htle
    by (intros a b c; lia).
  apply (Sorted_unique_strong (fun a b : Row => ds_key a <= ds_key b)).
  - intros x1 x2 Hx1 Hx2 H12 H21. rewrite Hperm in Hx1.
    apply (strictly_sorted_key_inj l); [| done | done | lia].
    by apply Sorted_StronglySorted.
  - apply not_descending_sorted; [| done]. by rewrite Hperm.
  - eapply sorted_weaken; [| exact Hl]. intros a b; cbn; lia.
  - done.
Qed.


(** ** [preparar_dados] for any correct sort *)

Section PreparedAnySort.
Context `{PandasConv}.

(** The rows kept, whatever the sort: a rearrangement of the complete rows,
    in ascending order of [ds]. *)
Lemma sorted_complete_rows (srt : sorter) (l : list Row) :
  correct_sorter srt ->
  srt by_ds l ≡ₚ l /\ ascending (srt by_ds l) = true.
Proof.
  intros Hsrt. destruct (Hsrt by_ds l by_ds_asym) as [Hperm Hsorted].
  split; [exact Hperm | by apply not_descending_ascending].
Qed.

Lemma to_datetime_or_null_date (c : cell) (t : Timestamp) :
  to_datetime_or_null c = CDate t <-> to_datetime_cell c = inr (CDate t).
Proof.
  unfold to_datetime_or_null. split.
  - destruct (to_datetime_cell c) as [e | c']; [discriminate | by intros ->].
  - by intros ->.
Qed.

Lemma complete_prepared_row (i j : nat) (r0 : Row) :
  complete_row (prepared_row i j r0) = true <->
  (exists t, to_datetime_cell (get_cell i r0) = inr (CDate t)) /\
  get_cell j r0 <> CNull.
Proof.
  unfold complete_row, prepared_row, notna. cbn. split.
  - intros Hc.
    destruct (to_datetime_or_null_cases (get_cell i r0)) as [Hn | [t Ht]].
    { rewrite Hn in Hc. discriminate. }
    split; [exists t; by apply to_datetime_or_null_date |].
    intros Hnull. rewrite Hnull, Ht in Hc. discriminate.
  - intros [[t Ht] Hv]. apply to_datetime_or_null_date in Ht. rewrite Ht.
    by destruct (get_cell j r0).
Qed.

Lemma df_empty_no_rows (d : DataFrame) (c : string) (i : nat) :
  df_empty d = true -> col_index c (columns d) = Some i -> rows d = [].
Proof.
  unfold df_empty. destruct (columns d) as [| c0 cols]; [discriminate |].
  by destruct (rows d).
Qed.

Lemma prepared_with_no_rows (srt : sorter) (d : DataFrame) (cd cv : string) :
  df_empty d = true -> prepared_with srt d cd cv = empty_frame.
Proof.
  intros He. unfold prepared_with, prepared_value_with. by rewrite He.
Qed.

End PreparedAnySort.

(** C2, amended. For a table whose column labels do not repeat, that is not
    empty and has the two columns, distinct, and for any correct sort: when
    every date converts (a missing date converts to a missing timestamp),
    the result has the columns [ds] and [y] and holds exactly the rows with
    a date and a value, in ascending order of date, whatever the order the
    sort gives to rows with equal dates; so a row with a missing date is
    dropped and the other rows stay. When the date of some row does not
    convert, the whole call yields the empty table. *)
Theorem preparar_dados_date_rows `{PandasConv}
    (srt : sorter) (st : store) (df : ref) (d : DataFrame) (cd cv : string)
    (i j : nat) :
  correct_sorter srt ->
  st !! df = Some d ->
  NoDup (columns d) ->
  df_empty d = false ->
  col_index cd (columns d) = Some i ->
  col_index cv (columns d) = Some j ->
  cd <> cv ->
  ((forall r, In r (rows d) -> date_converts (get_cell i r) = true) ->
   exists rs,
     returned_frame (preparar_dados_with srt df cd cv) st
     = Some (mkDF ["ds"; "y"] rs) /\
     rs ≡ₚ List.filter complete_row (map (prepared_row i j) (rows d)) /\
     ascending rs = true) /\
  (forall r, In r (rows d) -> date_converts (get_cell i r) = false ->
   returned_frame (preparar_dados_with srt df cd cv) st = Some empty_frame).
Proof.
  intros Hsrt Hd _ He Hi Hj Hne.
  rewrite (preparar_dados_with_returns srt st df d cd cv Hd).
  rewrite (prepared_with_frame srt d cd cv i j He Hi Hj Hne).
  split.
  - intros Hall.
    assert (forallb (fun r => date_converts (get_cell i r)) (rows d) = true) as ->
      by (apply forallb_forall; exact Hall).
    eexists. split; [reflexivity |]. by apply sorted_complete_rows.
  - intros r Hr Hbad.
    assert (forallb (fun r => date_converts (get_cell i r)) (rows d) = false) as ->;
      [| done].
    apply not_true_is_false. intros Hall.
    rewrite forallb_forall in Hall. specialize (Hall r Hr). congruence.
Qed.

(** The amended statement at a table with one missing date, with the sort
    that is not stable: the three dated rows come back, by date. *)
Lemma preparar_dados_date_rows_witness :
  exists rs,
    returned_frame (preparar_dados_with unstable_sorter 0%nat "data" "valor")
      [serie_com_data_ausente]
    = Some (mkDF ["ds"; "y"] rs) /\
    rs ≡ₚ [linha 0 (CDate (timestamp_of_date 2023 3 1)) (CNum 9);
           linha 2 (CDate (timestamp_of_date 2023 1 1)) (CNum 10);
           linha 3 (CDate (timestamp_of_date 2023 2 1)) (CNum 12)] /\
    ascending rs = true.
Proof.
  assert (forall r, In r (rows serie_com_data_ausente) ->
                    date_converts (get_cell 0 r) = true) as Hall.
  { intros r Hr. simpl in Hr.
    destruct Hr as [<- | [<- | [<- | [<- | []]]]]; vm_compute; reflexivity. }
  assert (NoDup (columns serie_com_data_ausente)) as Hnd.
  { apply (bool_decide_unpack _). vm_compute. exact I. }
  pose proof (preparar_dados_date_rows unstable_sorter [serie_com_data_ausente]
                0%nat serie_com_data_ausente "data" "valor" 0%nat 1%nat
                unstable_sorter_correct eq_refl Hnd eq_refl eq_refl eq_refl)
    as Hthm.
  destruct Hthm as [Hgood _]; [discriminate |].
  exact (Hgood Hall).
Defined.

(** C5, amended. The value column is left as it is, not coerced. For a
    table whose column labels do not repeat and that has the two columns,
    distinct, and for any correct sort: every row of the result is a row of
    the input with its date converted to the timestamp it reads as and its
    value unchanged and not missing; and, when every date converts, every
    row of the input with a date and a value is in the result, with that
    value, be it a number or a text. *)
Theorem preparar_dados_rows_complete `{PandasConv}
    (srt : sorter) (st : store) (df : ref) (d res : DataFrame)
    (cd cv : string) (i j : nat) :
  correct_sorter srt ->
  st !! df = Some d ->
  NoDup (columns d) ->
  col_index cd (columns d) = Some i ->
  col_index cv (columns d) = Some j ->
  cd <> cv ->
  returned_frame (preparar_dados_with srt df cd cv) st = Some res ->
  (forall r, In r (rows res) ->
     exists r0 t,
       In r0 (rows d) /\
       to_datetime_cell (get_cell i r0) = inr (CDate t) /\
       get_cell j r0 <> CNull /\
       r = mkRow (label r0) [CDate t; get_cell j r0]) /\
  ((forall r0, In r0 (rows d) -> date_converts (get_cell i r0) = true) ->
   forall r0 t,
     In r0 (rows d) ->
     to_datetime_cell (get_cell i r0) = inr (CDate t) ->
     get_cell j r0 <> CNull ->
     In (mkRow (label r0) [CDate t; get_cell j r0]) (rows res)).
Proof.
  intros Hsrt Hd _ Hi Hj Hne Hres.
  rewrite (preparar_dados_with_returns srt st df d cd cv Hd) in Hres.
  injection Hres as <-.
  destruct (df_empty d) eqn:He.
  { rewrite (prepared_with_no_rows srt d cd cv He).
    rewrite (df_empty_no_rows d cd i He Hi). split; [intros r [] |].
    intros _ r0 t []. }
  rewrite (prepared_with_frame srt d cd cv i j He Hi Hj Hne).
  destruct (forallb _ (rows d)) eqn:Hall.
  - cbn [rows].
    destruct (sorted_complete_rows srt
                (List.filter complete_row (map (prepared_row i j) (rows d)))
                Hsrt) as [Hperm _].
    split.
    + intros r Hr. apply (proj2 (list_elem_of_In _ _)) in Hr.
      rewrite Hperm in Hr. apply (proj1 (list_elem_of_In _ _)) in Hr.
      apply filter_In in Hr. destruct Hr as [Hr Hc].
      apply in_map_iff in Hr. destruct Hr as (r0 & <- & Hr0).
      apply complete_prepared_row in Hc.
      destruct Hc as [[t Ht] Hv]. exists r0, t.
      repeat split; try done.
      unfold prepared_row. apply to_datetime_or_null_date in Ht.
      by rewrite Ht.
    + intros _ r0 t Hr0 Ht Hv. apply (proj1 (list_elem_of_In _ _)).
      rewrite Hperm. apply (proj2 (list_elem_of_In _ _)).
      assert (mkRow (label r0) [CDate t; get_cell j r0] = prepared_row i j r0)
        as -> by (unfold prepared_row;
                  by rewrite (proj2 (to_datetime_or_null_date _ _) Ht)).
      apply filter_In. split.
      * apply in_map_iff. by exists r0.
      * apply complete_prepared_row. eauto.
  - split; [intros r [] |]. intros Hconv.
    assert (forallb (fun r => date_converts (get_cell i r)) (rows d) = true)
      by (apply forallb_forall; exact Hconv).
    congruence.
Qed.

(** The amended statement at the table with a text value, with the sort
    that is not stable: the row with the text is in the result. *)
Lemma preparar_dados_rows_complete_witness :
  In (mkRow 0 [CDate (timestamp_of_date 2023 1 1); CStr "abc"])
     (rows serie_preparada_com_texto).
Proof.
  assert (NoDup (columns serie_com_texto)) as Hnd.
  { apply (bool_decide_unpack _). vm_compute. exact I. }
  assert (forall r0, In r0 (rows serie_com_texto) ->
                     date_converts (get_cell 0 r0) = true) as Hall.
  { intros r Hr. simpl in Hr.
    destruct Hr as [<- | [<- | []]]; vm_compute; reflexivity. }
  assert (get_cell 1 (linha 0 (CStr "2023-01-01") (CStr "abc")) <> CNull)
    as Hv by discriminate.
  pose proof (preparar_dados_rows_complete unstable_sorter [serie_com_texto]
                0%nat serie_com_texto serie_preparada_com_texto
                "data" "valor" 0%nat 1%nat
                unstable_sorter_correct eq_refl Hnd eq_refl eq_refl) as Hthm.
  destruct Hthm as [_ Hin]; [discriminate | vm_compute; reflexivity |].
  exact (Hin Hall (linha 0 (CStr "2023-01-01") (CStr "abc"))
           (timestamp_of_date 2023 1 1) (or_introl eq_refl) eq_refl Hv).
Defined.


(** ** Idempotence and the order of equal dates *)


Lemma complete_rows_dated (rs : list Row) :
  Forall (fun r => exists t v, cells r = [CDate t; v] /\ v <> CNull) rs ->
  Forall (fun r => exists t, get_cell 0 r = CDate t) rs.
Proof.
  intros Hshape. eapply Forall_impl; [exact Hshape |].
  intros r (t & v & Hc & _). exists t. unfold get_cell. by rewrite Hc.
Qed.

Section PreparedAgainAnySort.
Context `{PandasConv}.

(** A second preparation, with any correct sort, of rows that each hold a
    timestamp and a value: a rearrangement in ascending order, and the same
    rows in the same order when no two timestamps are equal. *)
Lemma prepared_with_again (srt : sorter) (rs : list Row) :
  correct_sorter srt ->
  forallb (fun r => date_converts (get_cell 0 r)) rs = true ->
  List.filter complete_row (map (prepared_row 0 1) rs) = rs ->
  Forall (fun r => exists t, get_cell 0 r = CDate t) rs ->
  rows (prepared_with srt (mkDF ["ds"; "y"] rs) "ds" "y") ≡ₚ rs /\
  ascending (rows (prepared_with srt (mkDF ["ds"; "y"] rs) "ds" "y")) = true /\
  (strictly_ascending rs = true ->
   rows (prepared_with srt (mkDF ["ds"; "y"] rs) "ds" "y") = rs /\
   (rs <> [] ->
    prepared_with srt (mkDF ["ds"; "y"] rs) "ds" "y" = mkDF ["ds"; "y"] rs)).
Proof.
  intros Hsrt Hconv Hkeep Hdated.
  destruct rs as [| r rs].
  { rewrite prepared_with_no_rows by reflexivity. cbn [rows empty_frame].
    repeat split; done. }
  rewrite (prepared_with_frame srt _ "ds" "y" 0%nat 1%nat); try done.
  cbn [rows]. rewrite Hconv, Hkeep. cbn [rows].
  destruct (Hsrt by_ds (r :: rs) by_ds_asym) as [Hperm Hsorted].
  split; [exact Hperm |]. split; [by apply not_descending_ascending |].
  intros Hstrict.
  rewrite (sorted_rows_unique (r :: rs) (srt by_ds (r :: rs)) Hstrict Hdated
             Hperm Hsorted).
  split; done.
Qed.

End PreparedAgainAnySort.




(** X2. For a table whose column labels do not repeat, and for any correct
    sort, the frame [preparar_dados] returns is the empty frame or has
    exactly the columns [ds] and [y]; its rows are in ascending order of
    [ds]; and it has no more rows than the input. *)
Theorem preparar_dados_sorted_shape `{PandasConv}
    (srt : sorter) (st : store) (df : ref) (d res : DataFrame)
    (cd cv : string) :
  correct_sorter srt ->
  st !! df = Some d ->
  NoDup (columns d) ->
  returned_frame (preparar_dados_with srt df cd cv) st = Some res ->
  (res = empty_frame \/ columns res = ["ds"; "y"]) /\
  ascending (rows res) = true /\
  (length (rows res) <= length (rows d))%nat.
Proof.
  intros Hsrt Hd _ Hres.
  rewrite (preparar_dados_with_returns srt st df d cd cv Hd) in Hres.
  injection Hres as <-.
  destruct (prepared_with_cases srt d cd cv) as [-> | (i & j & _ & _ & ->)].
  { split; [by left |]. split; [done | cbn; lia]. }
  cbn [rows columns]. split; [by right |].
  destruct (sorted_complete_rows srt
              (List.filter complete_row (map (prepared_row i j) (rows d)))
              Hsrt) as [Hperm Hasc].
  split; [exact Hasc |].
  rewrite (Permutation_length Hperm).
  etransitivity; [apply filter_length_le |]. by rewrite length_map.
Qed.

Lemma preparar_dados_sorted_shape_witness :
  (serie_preparada_com_texto = empty_frame \/
   columns serie_preparada_com_texto = ["ds"; "y"]) /\
  ascending (rows serie_preparada_com_texto) = true /\
  (length (rows serie_preparada_com_texto) <= length (rows serie_com_texto))%nat.
Proof.
  apply (preparar_dados_sorted_shape unstable_sorter [serie_com_texto] 0%nat
           serie_com_texto serie_preparada_com_texto "data" "valor").
  - exact unstable_sorter_correct.
  - reflexivity.
  - apply (bool_decide_unpack _). vm_compute. exact I.
  - vm_compute. reflexivity.
Defined.

(** X3. For a table whose column labels do not repeat, and for any correct
    sort, [preparar_dados] applied to its own result, with the columns [ds]
    and [y], returns the rows of that result, rearranged at most, in
    ascending order of [ds]; when no two rows of the first result have the
    same timestamp, the second call returns the same rows in the same
    order, and the same table when there is at least one row. *)
Theorem preparar_dados_twice `{PandasConv}
    (srt : sorter) (st : store) (df : ref) (d : DataFrame) (cd cv : string) :
  correct_sorter srt ->
  st !! df = Some d ->
  NoDup (columns d) ->
  exists res res',
    returned_frame (preparar_dados_with srt df cd cv) st = Some res /\
    returned_frame
      (preparar_dados_with srt df cd cv ≫= fun r =>
       preparar_dados_with srt r "ds" "y") st
    = Some res' /\
    rows res' ≡ₚ rows res /\
    ascending (rows res') = true /\
    (strictly_ascending (rows res) = true ->
     rows res' = rows res /\ (rows res <> [] -> res' = res)).
Proof.
  intros Hsrt Hd _.
  exists (prepared_with srt d cd cv),
         (prepared_with srt (prepared_with srt d cd cv) "ds" "y").
  split; [by apply preparar_dados_with_returns |]. split.
  - unfold returned_frame. rewrite bind_run.
    destruct (preparar_dados_with_run srt st df d cd cv Hd) as [extra ->].
    pose proof (lookup_result st extra (prepared_with srt d cd cv)) as Hlook.
    destruct (preparar_dados_with_run srt _ _ _ "ds" "y" Hlook) as [extra2 ->].
    apply lookup_result.
  - destruct (prepared_with_cases srt d cd cv) as [-> | (i & j & _ & _ & ->)].
    { rewrite prepared_with_no_rows by reflexivity. repeat split; done. }
    cbn [rows].
    destruct (sorted_complete_rows srt
                (List.filter complete_row (map (prepared_row i j) (rows d)))
                Hsrt) as [Hperm _].
    assert (Forall (fun r => exists t v, cells r = [CDate t; v] /\ v <> CNull)
              (srt by_ds
                 (List.filter complete_row (map (prepared_row i j) (rows d)))))
      as Hshape.
    { rewrite Hperm.
      rewrite <- (sort_by_perm by_ds). apply prepared_rows_shape. }
    destruct (complete_rows_prepared _ Hshape) as [Hconv Hkeep].
    exact (prepared_with_again srt _ Hsrt Hconv Hkeep
             (complete_rows_dated _ Hshape)).
Qed.

Lemma preparar_dados_twice_witness :
  exists res res',
    returned_frame (preparar_dados_with unstable_sorter 0%nat "data" "valor")
      [serie_com_data_ausente]
    = Some res /\
    returned_frame
      (preparar_dados_with unstable_sorter 0%nat "data" "valor" ≫= fun r =>
       preparar_dados_with unstable_sorter r "ds" "y")
      [serie_com_data_ausente]
    = Some res' /\
    rows res' ≡ₚ rows res /\
    ascending (rows res') = true /\
    (strictly_ascending (rows res) = true ->
     rows res' = rows res /\ (rows res <> [] -> res' = res)).
Proof.
  apply (preparar_dados_twice unstable_sorter [serie_com_data_ausente] 0%nat
           serie_com_data_ausente "data" "valor").
  - exact unstable_sorter_correct.
  - reflexivity.
  - apply (bool_decide_unpack _). vm_compute. exact I.
Defined.


(** ** The dates of a forecast *)

(** What the simple library is fitted on, for canonical rows: one
    observation for each row, with the timestamp of the row. *)
Lemma canonical_observations (rs : list Row) :
  forallb canonical_row rs = true ->
  length (omap (SimpleProphet.observation 0 1) rs) = length rs /\
  map (@fst Timestamp Q) (omap (SimpleProphet.observation 0 1) rs)
  = map ds_key rs.
Proof.
  induction rs as [| r rs IH]; [done |]. cbn [forallb]. intros Hrs.
  apply andb_true_iff in Hrs. destruct Hrs as [Hr Hrs].
  destruct (IH Hrs) as [Hlen Hfst].
  destruct (canonical_row_cells r Hr) as (t & q & Hc).
  assert (SimpleProphet.observation 0 1 r = Some (t, q)) as Hobs
    by (unfold SimpleProphet.observation, get_cell; by rewrite Hc).
  assert (ds_key r = t) as Hkey by (unfold ds_key, get_cell; by rewrite Hc).
  cbn [omap list_omap map]. rewrite Hobs, Hkey. cbn [length map fst].
  by rewrite Hlen, Hfst.
Qed.

(** C3: the code extends the history day by day, whatever the cadence of
    the series. With the simple library, which extends by days as
    [make_future_dataframe(periods=n)] does when no frequency is passed,
    training on a canonical series of at least two rows succeeds, and the
    forecast for [h] periods has one row for each row of the history and [h]
    more, whose dates are the [h] days after the last date of the history. *)
Theorem prever_extends_by_days (d : DataFrame) (h : Z) :
  is_canonical d = true ->
  (2 <= length (rows d))%nat ->
  0 <= h ->
  exists previsor previsao,
    treinar previsor_exemplo d = (previsor, inr tt) /\
    prever previsor h = inr previsao /\
    Z.of_nat (length previsao) = Z.of_nat (length (rows d)) + h /\
    map ds previsao =
    map ds_key (rows d)
    ++ SimpleProphet.next_days (List.last (map ds_key (rows d)) 0) (Z.to_nat h).
Proof.
  intros Hcan Hlen Hh. unfold is_canonical in Hcan.
  apply andb_true_iff in Hcan. destruct Hcan as [Hcan _].
  apply andb_true_iff in Hcan. destruct Hcan as [Hcols Hrows].
  apply bool_decide_eq_true in Hcols.
  destruct d as [cols rs]. cbn [columns rows] in *. subst cols.
  destruct (canonical_observations rs Hrows) as [Hobs Hfst].
  assert (df_empty (mkDF ["ds"; "y"] rs) || (df_len (mkDF ["ds"; "y"] rs) <? 2)%nat
          = false) as Hguard.
  { unfold df_empty, df_len. cbn [columns rows].
    destruct rs as [| r1 [| r2 rs]]; cbn in Hlen; try lia. reflexivity. }
  assert ((length (omap (SimpleProphet.observation 0 1) rs) <? 2)%nat = false)
    as Hfit by (apply Nat.ltb_ge; lia).
  eexists. eexists. split.
  { unfold treinar. rewrite Hguard. cbn [previsor_exemplo novo_previsor tipo_modelo].
    cbn [String.eqb Ascii.eqb Bool.eqb].
    cbn -[omap Nat.ltb]. rewrite Hfit. reflexivity. }
  cbn -[omap SimpleProphet.next_days List.last Z.to_nat].
  split; [reflexivity |]. rewrite Hfst. split.
  - rewrite length_map, length_app, length_map.
    assert (forall t n, length (SimpleProphet.next_days t n) = n) as Hnext.
    { intros t n. revert t. induction n as [| n IH]; intros t; [done |].
      cbn. by rewrite IH. }
    rewrite Hnext. lia.
  - rewrite map_map. cbn [ds]. apply map_id.
Qed.

(** The statement at a monthly series and a horizon of two periods: the two
    rows added are dated 2 and 3 March 2023, the days after the last date,
    not 1 April and 1 May, the months after it. *)
Lemma prever_extends_by_days_witness :
  exists previsor previsao,
    treinar previsor_exemplo serie_canonica = (previsor, inr tt) /\
    prever previsor 2 = inr previsao /\
    map ds previsao =
    [timestamp_of_date 2023 1 1; timestamp_of_date 2023 2 1;
     timestamp_of_date 2023 3 1; timestamp_of_date 2023 3 2;
     timestamp_of_date 2023 3 3].
Proof.
  destruct (prever_extends_by_days serie_canonica 2)
    as (previsor & previsao & Htreinar & Hprever & _ & Hds).
  - vm_compute. reflexivity.
  - vm_compute. lia.
  - lia.
  - exists previsor, previsao. split; [exact Htreinar |].
    split; [exact Hprever |]. rewrite Hds. vm_compute. reflexivity.
Defined.

(** The fault of the table on a forecast the engine returns: history of
    15 January 2020 and 30 November 2026, horizon of one period. On
    4 November 2026 the table shows the row of 2020 and the row of
    30 November, and hides the row of 1 December 2026. *)
Lemma tabela_previsao_reachable_forecast :
  exists previsor previsao,
    treinar previsor_exemplo serie_de_duas_datas = (previsor, inr tt) /\
    prever previsor 1 = inr previsao /\
    map ds previsao =
    [timestamp_of_date 2020 1 15; timestamp_of_date 2026 11 30;
     timestamp_of_date 2026 12 1] /\
    map Data (tabela_previsao (timestamp_of_date 2026 11 4) previsao) =
    ["15/01/2020"; "30/11/2026"].
Proof.
  eexists. eexists. split; [vm_compute; reflexivity |].
  split; [vm_compute; reflexivity |].
  split; vm_compute; reflexivity.
Qed.


(** ** The rows [processar_dados_deficit] and [processar_dados_iof] keep *)

Lemma filter_map_comm {A B : Type} (p : B -> bool) (f : A -> B) (l : list A) :
  List.filter p (map f l) = map f (List.filter (fun x => p (f x)) l).
Proof.
  induction l as [| x l IH]; [done |]. cbn [map List.filter].
  destruct (p (f x)); cbn [map]; by rewrite IH.
Qed.

(** X11. When some record has a field [data], some record a field [valor],
    and every date converts, the rows of the result of
    [processar_dados_deficit] or [processar_dados_iof] are, in some order,
    the rows built from the records whose value is a number or reads as
    one, each with its date converted and its value coerced: the records
    with a missing value or a text that is not a number are dropped, and no
    other. The columns [i] and [k] of the rows built from the records hold
    the fields [data] and [valor] of the records, in the order of the
    records. *)
Theorem processar_dados_kept_rows `{PandasConv}
    (st : store) (rotulo : string) (dados : list record) (res : DataFrame) :
  Exists (fun r => dict_get "data" r <> None) dados ->
  Exists (fun r => dict_get "valor" r <> None) dados ->
  Forall (fun r => date_converts (campo "data" r) = true) dados ->
  returned_frame (processar_dados_como rotulo dados) st = Some res ->
  exists i k,
    col_index "data" (columns (from_records dados)) = Some i /\
    col_index "valor" (columns (from_records dados)) = Some k /\
    map (get_cell i) (rows (from_records dados)) = map (campo "data") dados /\
    map (get_cell k) (rows (from_records dados)) = map (campo "valor") dados /\
    rows res ≡ₚ
      map (processed_row i k)
        (List.filter (fun r => notna (to_numeric_cell (get_cell k r)))
           (rows (from_records dados))) /\
    length (rows res) =
    length (List.filter (fun r => notna (to_numeric_cell (campo "valor" r)))
              dados).
Proof.
  intros Hdata Hvalor Hdates. rewrite processar_dados_returned. intros [= <-].
  destruct (col_index_from_records_some _ _ Hdata) as [i Hi].
  destruct (col_index_from_records_some _ _ Hvalor) as [k Hk].
  exists i, k.
  pose proof (from_records_column dados i "data" (col_index_lookup _ _ _ Hi))
    as Hcoli.
  pose proof (from_records_column dados k "valor" (col_index_lookup _ _ _ Hk))
    as Hcolk.
  change (fun r => match dict_get "data" r with Some v => v | None => CNull end)
    with (campo "data") in Hcoli.
  change (fun r => match dict_get "valor" r with Some v => v | None => CNull end)
    with (campo "valor") in Hcolk.
  do 4 (split; [done |]).
  rewrite (processado_frame rotulo dados i k Hi Hk).
  assert (forallb (fun r => date_converts (get_cell i r)) (rows (from_records dados))
          = true) as ->.
  { rewrite <- (forallb_map_compose date_converts (get_cell i)).
    rewrite Hcoli, forallb_map_compose. apply forallb_forall. intros r Hr.
    rewrite Forall_forall in Hdates. apply Hdates.
    by apply (proj2 (list_elem_of_In _ _)). }
  cbn [rows].
  assert (i <> k) as Hik by (eapply (col_index_distinct "data" "valor"); done).
  assert (List.filter (fun r => notna (get_cell k r))
            (map (processed_row i k) (rows (from_records dados)))
          = map (processed_row i k)
              (List.filter (fun r => notna (to_numeric_cell (get_cell k r)))
                 (rows (from_records dados)))) as Hkept.
  { rewrite filter_map_comm. f_equal. apply filter_ext_in.
    intros r Hr. pose proof (from_records_row_length dados) as Hlen.
    rewrite Forall_forall in Hlen.
    apply (proj2 (list_elem_of_In _ _)) in Hr. specialize (Hlen r Hr).
    pose proof (lookup_lt_Some _ _ _ (col_index_lookup _ _ _ Hi)).
    pose proof (lookup_lt_Some _ _ _ (col_index_lookup _ _ _ Hk)).
    destruct (processed_row_cells i k r Hik) as [_ ->]; [lia | lia | done]. }
  rewrite Hkept. split; [apply sort_by_perm |].
  rewrite (Permutation_length (sort_by_perm _ _)), length_map.
  rewrite <- (filter_map_length (fun c => notna (to_numeric_cell c)) (get_cell k)).
  rewrite Hcolk. by rewrite filter_map_length.
Qed.

Lemma processar_dados_kept_rows_witness :
  exists res i k,
    returned_frame
      (processar_dados_iof
         [[("data", CStr "2023-02-01"); ("valor", CStr "12.5")];
          [("data", CStr "2023-01-01"); ("valor", CStr "x")];
          [("valor", CNum 3); ("data", CStr "2023-01-05")]]) [] = Some res /\
    rows res ≡ₚ
      map (processed_row i k)
        [mkRow 0 [CStr "2023-02-01"; CStr "12.5"];
         mkRow 2 [CStr "2023-01-05"; CNum 3]] /\
    length (rows res) = 2%nat.
Proof.
  eexists.
  destruct (processar_dados_kept_rows [] "iof"
             [[("data", CStr "2023-02-01"); ("valor", CStr "12.5")];
              [("data", CStr "2023-01-01"); ("valor", CStr "x")];
              [("valor", CNum 3); ("data", CStr "2023-01-05")]]
             (processado "iof"
                [[("data", CStr "2023-02-01"); ("valor", CStr "12.5")];
                 [("data", CStr "2023-01-01"); ("valor", CStr "x")];
                 [("valor", CNum 3); ("data", CStr "2023-01-05")]]))
    as (i & k & Hi & Hk & _ & _ & Hperm & Hlen).
  - apply Exists_cons_hd. discriminate.
  - apply Exists_cons_hd. discriminate.
  - repeat constructor.
  - apply processar_dados_returned.
  - exists i, k. split; [apply processar_dados_returned |].
    vm_compute in Hi. vm_compute in Hk.
    injection Hi as <-. injection Hk as <-.
    split; [exact Hperm | exact Hlen].
Defined.

(** ** The table the forecast flow shows *)

(** X19. A forecast table and an error message never appear together: when
    the flow shows a table, it shows no error; a value column was resolved,
    the training of a new engine on the prepared frame succeeded, and the
    table is the one computed from the forecast that engine returned for
    the chosen horizon. *)
Theorem gerar_previsao_table_without_error `{PandasConv} {model fig : Type}
    `{ProphetAPI model} `{PlotAPI model fig}
    (st : store) (df : ref) (d : DataFrame) (hint : option string)
    (nome : string) (anual semanal diaria : bool) (modo : string) (escala : Q)
    (periodo : Z) (agora : Timestamp)
    (out : list (elemento fig)) (t : list LinhaTabela) :
  st !! df = Some d ->
  returned_value
    (gerar_previsao (model := model) (fig := fig) df hint nome anual semanal
       diaria modo escala periodo agora) st = Some out ->
  In (ElTabela t) out ->
  forallb (fun e => negb (is_erro e)) out = true /\
  exists (c : string) (dp : DataFrame)
         (previsor : PrevisorSeriesTemporal model)
         (previsao : list ForecastRow),
    fst (obter_coluna_valor hint nome d) = Some c /\
    returned_frame (preparar_dados df "data" c) st = Some dp /\
    treinar (novo_previsor "prophet" anual semanal diaria modo escala) dp
    = (previsor, inr tt) /\
    prever previsor periodo = inr previsao /\
    t = tabela_previsao agora previsao.
Proof.
  intros Hd Hout Hin. unfold returned_value in Hout.
  destruct (obter_coluna_valor hint nome d) as [[c |] msgs] eqn:Hcol; cycle 1.
  { rewrite (gerar_previsao_no_column st df d) in Hout; [| done |];
      [| by rewrite Hcol].
    injection Hout as <-. by destruct Hin as [? | []]. }
  pose proof (obter_coluna_valor_some _ _ _ _ _ Hcol) as ->.
  destruct (truthy c) eqn:Hc; cycle 1.
  { unfold gerar_previsao in Hout.
    rewrite bind_run, (deref_some _ _ _ Hd), Hcol, Hc in Hout.
    injection Hout as <-. destruct Hin. }
  destruct (gerar_previsao_run (model := model) (fig := fig) st df d hint nome
              c [] anual semanal diaria modo escala periodo agora Hd Hcol Hc)
    as [extra Hrun].
  rewrite Hrun in Hout. injection Hout as <-.
  unfold desfecho in *. cbn [map app] in *.
  destruct (treinar _ (prepared d "data" c)) as [p [e | []]] eqn:Htreinar.
  { by destruct Hin as [? | []]. }
  destruct (prever p periodo) as [e | previsao] eqn:Hprever.
  { by destruct Hin as [? | []]. }
  split.
  - unfold mostra_grafico.
    destruct (plotar_previsao p previsao _), (plotar_componentes p previsao);
      reflexivity.
  - exists c, (prepared d "data" c), p, previsao.
    split; [reflexivity |].
    split; [by apply preparar_dados_returns |].
    split; [exact Htreinar |]. split; [exact Hprever |].
    unfold mostra_grafico in Hin.
    destruct (plotar_previsao p previsao _), (plotar_componentes p previsao);
      cbn in Hin; intuition congruence.
Qed.

Lemma gerar_previsao_table_without_error_witness :
  exists out t,
    returned_value
      (gerar_previsao (model := SimpleProphet.model) (fig := SimplePlot.fig)
         0%nat None "IOF" true false false "multiplicative" (5 # 100)%Q 2
         (timestamp_of_date 2023 3 2))
      [serie_com_data_ausente] = Some out /\
    In (ElTabela t) out /\
    forallb (fun e => negb (is_erro e)) out = true /\
    exists (c : string) (dp : DataFrame)
           (previsor : PrevisorSeriesTemporal SimpleProphet.model)
           (previsao : list ForecastRow),
      fst (obter_coluna_valor None "IOF" serie_com_data_ausente) = Some c /\
      returned_frame (preparar_dados 0%nat "data" c) [serie_com_data_ausente]
      = Some dp /\
      treinar (novo_previsor "prophet" true false false "multiplicative"
                 (5 # 100)%Q) dp
      = (previsor, inr tt) /\
      prever previsor 2 = inr previsao /\
      t = tabela_previsao (timestamp_of_date 2023 3 2) previsao.
Proof.
  eexists. eexists. split; [vm_compute; reflexivity |].
  split; [right; right; left; reflexivity |].
  eapply (gerar_previsao_table_without_error (model := SimpleProphet.model)
            (fig := SimplePlot.fig) [serie_com_data_ausente] 0%nat
            serie_com_data_ausente None "IOF" true false false "multiplicative"
            (5 # 100)%Q 2 (timestamp_of_date 2023 3 2)).
  - reflexivity.
  - vm_compute. reflexivity.
  - right. right. left. reflexivity.
Defined.
